(** * OrderSystem: the cart, the order submission and the menu loader

    A shallow embedding of [src/components/OrderSystem.tsx].

    The component keeps six state slots ([menuItems], [orderItems],
    [loading], [error], [submitting], [successMessage]) and reads the
    acting [user] from the authentication hook.  Its handlers are
    embedded as functions on a record of those slots.  A handler that
    talks to the outside world (the two services, the console) is
    written in a small monad over the slots and a trace of effects,
    so that it reads in program order.

    JS numbers are IEEE-754 binary64 values.  Prices and the running
    total are embedded as such ([Stdlib.Floats.SpecFloat]).  Item ids
    and quantities are whole numbers, which binary64 holds exactly
    below [2^53]; they are embedded as integers. *)

From Stdlib Require Import ZArith List String Bool Lia QArith Permutation.
From Stdlib Require Import SpecFloat.
Import ListNotations.

Local Open Scope Z_scope.

(** ** JS numbers *)

Module JSNumber.

(** binary64: 53 bits of precision, exponents up to 1024. *)
Definition prec : Z := 53.
Definition emax : Z := 1024.

Definition number : Type := spec_float.

(** The literal [0]. *)
Definition zero : number := S754_zero false.

(** The number an integer denotes (rounded to nearest even when it has
    more than 53 significant bits). *)
Definition of_Z (z : Z) : number := binary_normalize prec emax z 0 false.

(** JS [+] and [*] on numbers. *)
Definition add (x y : number) : number := SFadd prec emax x y.
Definition mul (x y : number) : number := SFmul prec emax x y.

(** The number a decimal literal [m / 10^k] denotes, for [m] and [10^k]
    below [2^53]: the quotient of two exact integers, rounded once. *)
Definition decimal (m : Z) (k : Z) : number :=
  SFdiv prec emax (of_Z m) (of_Z (10 ^ k)).

(** The rational a finite number stands for. *)
Definition value (x : number) : option Q :=
  match x with
  | S754_zero _ => Some 0%Q
  | S754_finite s m e =>
      let n := if s then Z.neg m else Z.pos m in
      Some (if 0 <=? e then inject_Z (n * 2 ^ e)
            else Qmake n (Z.to_pos (2 ^ (- e))))
  | S754_infinity _ | S754_nan => None
  end.

(** A whole number that binary64 holds without rounding, zero apart. *)
Definition small (z : Z) : Prop := 0 < z < 2 ^ 53.

(** The 53-bit mantissa and the exponent of such a number. *)
Definition mantissa (z : Z) : positive := Z.to_pos (z * 2 ^ (52 - Z.log2 z)).
Definition exponent (z : Z) : Z := Z.log2 z - 52.

(** A mantissa and an exponent that need no further rounding. *)
Definition canonical (n : positive) (f : Z) : Prop :=
  fexp prec emax (Zdigits2 (Zpos n) + f) = f /\ f <= emax - prec.

End JSNumber.

Import JSNumber.

(** ** Data model *)

(** Modelled from the spec: [types.ts] (the declarations of [MenuItem]
    and [OrderItem]) is not part of the sources at hand.  A catalog
    item carries an integer id, a name and a price; an order item is
    a catalog item together with a quantity, which is how the handlers
    build one ([{ ...item, quantity: 1 }]). *)
Record MenuItem : Type := mkMenuItem {
  id : Z;
  name : string;
  price : number
}.

Record OrderItem : Type := mkOrderItem {
  item : MenuItem;      (* the fields spread from the catalog item *)
  quantity : Z
}.

(** [i.id === k] *)
Definition has_id (k : Z) (i : OrderItem) : bool := id (item i) =? k.

(** ** The cart: what each handler does to the [orderItems] slot *)

Module Cart.

(** [handleAddItem], lines 38-48. *)
Definition handleAddItem (it : MenuItem) (prev : list OrderItem)
  : list OrderItem :=
  match find (has_id (id it)) prev with
  | Some _existing =>
      map (fun i =>
             if has_id (id it) i
             then {| item := item i; quantity := quantity i + 1 |}
             else i) prev
  | None => prev ++ [ {| item := it; quantity := 1 |} ]
  end.

(** [handleUpdateQuantity], lines 50-57. *)
Definition handleUpdateQuantity (k : Z) (q : Z) (prev : list OrderItem)
  : list OrderItem :=
  if q <? 1 then prev
  else map (fun i =>
              if has_id k i then {| item := item i; quantity := q |}
              else i) prev.

(** [handleRemoveItem], lines 59-61. *)
Definition handleRemoveItem (k : Z) (prev : list OrderItem)
  : list OrderItem :=
  filter (fun i => negb (has_id k i)) prev.

(** [calculateTotal], lines 63-65: a left-to-right [reduce] from the
    number [0]. *)
Definition calculateTotal (orderItems : list OrderItem) : number :=
  fold_left
    (fun sum i => add sum (mul (price (item i)) (of_Z (quantity i))))
    orderItems zero.

(** The calls a user interface can make on the cart. *)
Inductive call : Type :=
| Add (it : MenuItem)
| UpdateQuantity (k : Z) (q : Z)
| Remove (k : Z).

Definition apply (cart : list OrderItem) (c : call) : list OrderItem :=
  match c with
  | Add it => handleAddItem it cart
  | UpdateQuantity k q => handleUpdateQuantity k q cart
  | Remove k => handleRemoveItem k cart
  end.

Definition run (cart : list OrderItem) (cs : list call) : list OrderItem :=
  fold_left apply cs cart.

(** The ids of the lines, in cart order. *)
Definition ids (cart : list OrderItem) : list Z :=
  map (fun i => id (item i)) cart.

(** The lines with a given id, in cart order. *)
Definition lines_of (k : Z) (cart : list OrderItem) : list OrderItem :=
  filter (has_id k) cart.


End Cart.

(** ** Exact arithmetic, for comparison with [calculateTotal] *)

Module Exact.

(** The sum of price times quantity over the lines, in the rationals;
    defined when every price is finite. *)
Fixpoint total (cart : list OrderItem) : option Q :=
  match cart with
  | [] => Some 0%Q
  | i :: rest =>
      match value (price (item i)), total rest with
      | Some p, Some t => Some (p * inject_Z (quantity i) + t)%Q
      | _, _ => None
      end
  end.

(** Equality of two optional rationals, as a boolean. *)
Definition same (x y : option Q) : bool :=
  match x, y with
  | Some a, Some b => Qeq_bool a b
  | _, _ => false
  end.

(** One round of the [reduce] does not round: the quantity, the product
    and the new sum are the exact ones. *)
Definition step_exact (sum : number) (i : OrderItem) : bool :=
  let p := price (item i) in
  let q := of_Z (quantity i) in
  match value sum, value p with
  | Some vs, Some vp =>
      same (value q) (Some (inject_Z (quantity i)))
      && same (value (mul p q)) (Some (vp * inject_Z (quantity i))%Q)
      && same (value (add sum (mul p q)))
              (Some (vs + vp * inject_Z (quantity i))%Q)
  | _, _ => false
  end.

(** No round of the [reduce] over the cart rounds. *)
Fixpoint no_rounding_from (sum : number) (cart : list OrderItem) : bool :=
  match cart with
  | [] => true
  | i :: rest =>
      step_exact sum i
      && no_rounding_from (add sum (mul (price (item i)) (of_Z (quantity i))))
                          rest
  end.

Definition no_rounding (cart : list OrderItem) : bool :=
  no_rounding_from zero cart.

(** Prices kept as whole numbers (amounts in the smallest unit of the
    currency, say): [units l] is the integer the price of line [l]
    stands for. *)
Definition whole_prices (units : OrderItem -> Z) (cart : list OrderItem)
  : Prop :=
  Forall (fun l => price (item l) = of_Z (units l)
                   /\ 0 <= units l < 2 ^ 53
                   /\ 0 <= quantity l < 2 ^ 53) cart.

(** The sum of price times quantity over such lines, in the integers. *)
Definition whole_total (units : OrderItem -> Z) (cart : list OrderItem) : Z :=
  fold_right (fun l t => units l * quantity l + t) 0 cart.

End Exact.

(** ** The component *)

Module OrderSystem.

(** Modelled from the spec: the [useAuth] hook is not part of the
    sources at hand; it supplies the acting user, or none. *)
Record User : Type := mkUser { user_id : string }.

Inductive OrderStatus : Type := pending.

(** The object literal of lines 74-81. *)
Record Order : Type := mkOrder {
  order_id : string;
  items : list OrderItem;
  total : number;
  timestamp : string;
  status : OrderStatus;
  userId : string
}.

(** Modelled from the spec: the two services are not part of the
    sources at hand.  A call of one of them settles later, with a
    result or with a thrown value; [err.message] may be missing. *)
Record Failure : Type := mkFailure { message : option string }.

(** How an awaited promise settles. *)
Inductive settled (A : Type) : Type :=
| Fulfilled (a : A)
| Rejected (err : Failure).
Arguments Fulfilled {A} a.
Arguments Rejected {A} err.

(** The state slots of lines 14-19, and the user of line 20. *)
Record State : Type := mkState {
  menuItems : list MenuItem;
  orderItems : list OrderItem;
  loading : bool;
  error : option string;
  submitting : bool;
  successMessage : option string;
  user : option User
}.

(** The state of the first render. *)
Definition initial (u : option User) : State :=
  {| menuItems := []; orderItems := []; loading := true; error := None;
     submitting := false; successMessage := None; user := u |}.

(** What leaves the component: calls to the two services and console
    output. *)
Inductive effect : Type :=
| GetMenuItems
| SubmitOrder (o : Order)
| ConsoleError (label : option string) (err : Failure).

(** A handler reads and writes the slots and emits effects, in program
    order. *)
Definition M (A : Type) : Type := State -> A * State * list effect.

Definition ret {A : Type} (a : A) : M A := fun s => (a, s, []).

Definition bind {A B : Type} (c : M A) (k : A -> M B) : M B :=
  fun s =>
    let '(a, s1, t1) := c s in
    let '(b, s2, t2) := k a s1 in
    (b, s2, t1 ++ t2).

Notation "x <- c ;; k" := (bind c (fun x => k))
  (at level 61, c at next level, right associativity).
Notation "c ;; k" := (bind c (fun _ => k))
  (at level 61, right associativity).

Definition emit (e : effect) : M unit := fun s => (tt, s, [e]).

Definition setMenuItems (v : list MenuItem) : M unit :=
  fun s => (tt, {| menuItems := v; orderItems := orderItems s;
                   loading := loading s; error := error s;
                   submitting := submitting s;
                   successMessage := successMessage s; user := user s |}, []).

(** [setOrderItems] with an updater function. *)
Definition setOrderItems (f : list OrderItem -> list OrderItem) : M unit :=
  fun s => (tt, {| menuItems := menuItems s; orderItems := f (orderItems s);
                   loading := loading s; error := error s;
                   submitting := submitting s;
                   successMessage := successMessage s; user := user s |}, []).

Definition setLoading (v : bool) : M unit :=
  fun s => (tt, {| menuItems := menuItems s; orderItems := orderItems s;
                   loading := v; error := error s;
                   submitting := submitting s;
                   successMessage := successMessage s; user := user s |}, []).

Definition setError (v : option string) : M unit :=
  fun s => (tt, {| menuItems := menuItems s; orderItems := orderItems s;
                   loading := loading s; error := v;
                   submitting := submitting s;
                   successMessage := successMessage s; user := user s |}, []).

Definition setSubmitting (v : bool) : M unit :=
  fun s => (tt, {| menuItems := menuItems s; orderItems := orderItems s;
                   loading := loading s; error := error s;
                   submitting := v;
                   successMessage := successMessage s; user := user s |}, []).

Definition setSuccessMessage (v : option string) : M unit :=
  fun s => (tt, {| menuItems := menuItems s; orderItems := orderItems s;
                   loading := loading s; error := error s;
                   submitting := submitting s;
                   successMessage := v; user := user s |}, []).

(** The state and the effects a handler leaves behind. *)
Definition exec (c : M unit) (s : State) : State * list effect :=
  let '(_, s', t) := c s in (s', t).

(** JS truthiness of a string slot: [null] and the empty string are
    falsy. *)
Definition truthy (v : option string) : bool :=
  match v with
  | Some EmptyString | None => false
  | Some _ => true
  end.

(** [v || fallback] on strings. *)
Definition or_else (v : option string) (fallback : string) : string :=
  match v with
  | Some EmptyString | None => fallback
  | Some m => m
  end.

(** *** The menu loader, lines 22-36 *)

(** The effect run once after the first render: [fetchMenuItems] up to
    its [await]. *)
Definition fetchMenuItems : M unit := emit GetMenuItems.

(** [fetchMenuItems] from the point where [getMenuItems()] settles. *)
Definition fetchMenuItems_settled (r : settled (list MenuItem)) : M unit :=
  match r with
  | Fulfilled items => setMenuItems items
  | Rejected err =>
      setError (Some "Failed to load menu items"%string) ;;
      emit (ConsoleError None err)
  end ;;
  setLoading false.

(** *** The cart handlers, lines 38-61 *)

Definition handleAddItem (it : MenuItem) : M unit :=
  setOrderItems (Cart.handleAddItem it).

Definition handleUpdateQuantity (k q : Z) : M unit :=
  setOrderItems (Cart.handleUpdateQuantity k q).

Definition handleRemoveItem (k : Z) : M unit :=
  setOrderItems (Cart.handleRemoveItem k).

(** *** The order submitter, lines 67-92 *)

(** The guard of line 68. *)
Definition guard (closure : State) : bool :=
  match user closure with None => true | Some _ => false end
  || (List.length (orderItems closure) =? 0)%nat
  || submitting closure.

(** The order built at lines 74-81. *)
Definition new_order (closure : State) (u : User) (uuid now : string) : Order :=
  {| order_id := uuid;
     items := orderItems closure;
     total := Cart.calculateTotal (orderItems closure);
     timestamp := now;
     status := pending;
     userId := user_id u |}.

(** [handleSubmitOrder] up to its [await].  The handler reads [user],
    [orderItems] and [submitting] from the render it was created in
    ([closure]); [uuid] and [now] are what [crypto.randomUUID()] and
    [new Date().toISOString()] return. *)
Definition handleSubmitOrder (closure : State) (uuid now : string) : M unit :=
  match user closure with
  | None => ret tt
  | Some u =>
      if (List.length (orderItems closure) =? 0)%nat || submitting closure
      then ret tt
      else
        setSubmitting true ;;
        setError None ;;
        let order := new_order closure u uuid now in
        emit (SubmitOrder order)
  end.

(** [handleSubmitOrder] from the point where [submitOrder(order)]
    settles: the rest of [try], or [catch], and then [finally]. *)
Definition handleSubmitOrder_settled (r : settled unit) : M unit :=
  match r with
  | Fulfilled _ =>
      setOrderItems (fun _ => []) ;;
      setSuccessMessage (Some "Order submitted successfully!"%string)
  | Rejected err =>
      setError (Some (or_else (message err) "Failed to submit order")) ;;
      emit (ConsoleError (Some "Order submission error:"%string) err)
  end ;;
  setSubmitting false.

(** *** What is rendered, lines 94-139 *)

(** The props of the [Snackbar], lines 129-133; the duration is in
    milliseconds. *)
Record SnackbarProps : Type := mkSnackbar {
  open : bool;
  autoHideDuration : Z
}.

Definition snackbar (s : State) : SnackbarProps :=
  {| open := truthy (successMessage s); autoHideDuration := 6000 |}.

(** [onClose] of the [Snackbar] (which the library calls when the
    duration has run out) and of the [Alert] (which it calls when the
    user dismisses it). *)
Definition onClose : M unit := setSuccessMessage None.

Inductive view : Type :=
| LoadingSpinner
| Page (banner : option string) (snack : SnackbarProps).

Definition render (s : State) : view :=
  if loading s then LoadingSpinner
  else Page (if truthy (error s) then error s else None) (snackbar s).

(** *** The component as a machine *)

(** One handler runs at a time and to its next [await]; the component
    is rendered again before the next one starts, so every handler
    reads the state its predecessor left. *)
Inductive event : Type :=
| Mounted
| MenuSettled (r : settled (list MenuItem))
| CartCall (c : Cart.call)
| Submit (uuid now : string)
| SubmitSettled (r : settled unit)
| SnackbarClosed.

Definition handler (s : State) (e : event) : M unit :=
  match e with
  | Mounted => fetchMenuItems
  | MenuSettled r => fetchMenuItems_settled r
  | CartCall (Cart.Add it) => handleAddItem it
  | CartCall (Cart.UpdateQuantity k q) => handleUpdateQuantity k q
  | CartCall (Cart.Remove k) => handleRemoveItem k
  | Submit uuid now => handleSubmitOrder s uuid now
  | SubmitSettled r => handleSubmitOrder_settled r
  | SnackbarClosed => onClose
  end.

Definition step (s : State) (e : event) : State * list effect :=
  exec (handler s e) s.

(** A run: the state after the events and every effect emitted on the
    way, oldest first. *)
Fixpoint run (s : State) (es : list event) : State * list effect :=
  match es with
  | [] => (s, [])
  | e :: rest =>
      let '(s1, t1) := step s e in
      let '(s2, t2) := run s1 rest in
      (s2, t1 ++ t2)
  end.

Definition is_submitOrder (e : effect) : bool :=
  match e with SubmitOrder _ => true | _ => false end.

Definition is_getMenuItems (e : effect) : bool :=
  match e with GetMenuItems => true | _ => false end.

(** The number of calls of [orderService.submitOrder] in a trace. *)
Definition persistence_calls (t : list effect) : nat :=
  List.length (filter is_submitOrder t).

(** The number of calls of [menuService.getMenuItems] in a trace. *)
Definition load_calls (t : list effect) : nat :=
  List.length (filter is_getMenuItems t).

Definition is_mounted (e : event) : bool :=
  match e with Mounted => true | _ => false end.

(** The effect of lines 22-36 has an empty dependency list: it runs
    after the first render and never again. *)
Definition no_mount (es : list event) : bool :=
  forallb (fun e => negb (is_mounted e)) es.



End OrderSystem.

(** ** Concrete carts and states *)

Module Samples.
Import OrderSystem.

(** Three catalog items priced 0.10, 0.20 and 0.30, and one priced
    5.00. *)
Definition tea : MenuItem := {| id := 1; name := "tea"; price := decimal 1 1 |}.
Definition bun : MenuItem := {| id := 2; name := "bun"; price := decimal 2 1 |}.
Definition jam : MenuItem := {| id := 3; name := "jam"; price := decimal 3 1 |}.
Definition soup : MenuItem := {| id := 1; name := "soup"; price := decimal 500 2 |}.

(** The same item at a later, different price. *)
Definition soup' : MenuItem := {| id := 1; name := "soup"; price := decimal 650 2 |}.

(** The cart [{id: 1, price: 5.00, quantity: 2}]. *)
Definition cart : list OrderItem := [ {| item := soup; quantity := 2 |} ].

Definition alice : User := {| user_id := "alice" |}.

(** A rendered page with that cart, a signed-in user and nothing in
    flight. *)
Definition ready : State :=
  {| menuItems := [soup; bun; jam]; orderItems := cart; loading := false;
     error := None; submitting := false; successMessage := None;
     user := Some alice |}.

(** The same page without a user. *)
Definition signed_out : State :=
  {| menuItems := [soup; bun; jam]; orderItems := cart; loading := false;
     error := None; submitting := false; successMessage := None;
     user := None |}.

Definition network_error : Failure := {| message := Some "network error"%string |}.

(** Two items priced in whole units, 5 and 3. *)
Definition stew : MenuItem := {| id := 1; name := "stew"; price := of_Z 5 |}.
Definition pie : MenuItem := {| id := 2; name := "pie"; price := of_Z 3 |}.

(** The whole number each of these prices stands for. *)
Definition units_of (l : OrderItem) : Z := if id (item l) =? 1 then 5 else 3.

End Samples.

(** ** Observations on carts, runs and traces *)

Module Observe.
Import OrderSystem.

(** A series of [handleAddItem] calls, first to last. *)
Definition adds (its : list MenuItem) (cart : list OrderItem)
  : list OrderItem :=
  fold_left (fun c it => Cart.handleAddItem it c) its cart.

(** What one add does to the lines of id [k], given those lines. *)
Definition add_to_lines (k : Z) (L : list OrderItem) (it : MenuItem)
  : list OrderItem :=
  if id it =? k
  then match L with
       | [] => [ {| item := it; quantity := 1 |} ]
       | _ :: _ =>
           map (fun i => {| item := item i; quantity := quantity i + 1 |}) L
       end
  else L.

Definition is_add (e : event) : bool :=
  match e with CartCall (Cart.Add _) => true | _ => false end.

(** No item is added during these events. *)
Definition no_add (es : list event) : bool :=
  forallb (fun e => negb (is_add e)) es.

Definition is_menuSettled (e : event) : bool :=
  match e with MenuSettled _ => true | _ => false end.




(** The cart calls as events of the component. *)
Definition cart_events (cs : list Cart.call) : list event :=
  map CartCall cs.

End Observe.

(** * Properties of the cart *)

Module CartFacts.
Import Cart.

Lemma has_id_true (k : Z) (i : OrderItem) :
  has_id k i = true <-> id (item i) = k.
Proof. unfold has_id. apply Z.eqb_eq. Qed.

Lemma has_id_false (k : Z) (i : OrderItem) :
  has_id k i = false <-> id (item i) <> k.
Proof. unfold has_id. apply Z.eqb_neq. Qed.

(** [find] misses exactly when no line carries the id. *)
Lemma find_none_iff (k : Z) (cart : list OrderItem) :
  find (has_id k) cart = None <-> ~ In k (ids cart).
Proof.
  induction cart as [|i cart IH]; simpl.
  - tauto.
  - destruct (has_id k i) eqn:E.
    + apply has_id_true in E. split; [discriminate | intros H; exfalso; auto].
    + apply has_id_false in E. rewrite IH. tauto.
Qed.

Lemma find_some_iff (k : Z) (cart : list OrderItem) :
  (exists i, find (has_id k) cart = Some i) <-> In k (ids cart).
Proof.
  destruct (find (has_id k) cart) eqn:E.
  - split; [intros _ | eauto].
    apply find_some in E. destruct E as [Hin Hid].
    apply has_id_true in Hid. subst k.
    now apply (in_map (fun i => id (item i))).
  - apply find_none_iff in E. split; [intros [i Hi]; discriminate | tauto].
Qed.

(** Rewriting the quantity of some lines keeps the ids. *)
Lemma ids_map_quantity (p : OrderItem -> bool) (f : OrderItem -> Z)
      (cart : list OrderItem) :
  ids (map (fun i => if p i then {| item := item i; quantity := f i |}
                     else i) cart) = ids cart.
Proof.
  unfold ids. rewrite map_map. apply map_ext. intros i.
  now destruct (p i).
Qed.

Lemma ids_app (c1 c2 : list OrderItem) : ids (c1 ++ c2) = ids c1 ++ ids c2.
Proof. unfold ids. apply map_app. Qed.



(** A line with another id is not touched by [lines_of]. *)
Lemma lines_of_none (k : Z) (cart : list OrderItem) :
  ~ In k (ids cart) -> lines_of k cart = [].
Proof.
  induction cart as [|i cart IH]; simpl; intros H; auto.
  destruct (has_id k i) eqn:E.
  - apply has_id_true in E. exfalso; auto.
  - apply IH. tauto.
Qed.






(** Adding an item whose id the cart lacks appends a fresh line. *)
Lemma handleAddItem_fresh (it : MenuItem) (cart : list OrderItem) :
  ~ In (id it) (ids cart) ->
  handleAddItem it cart = cart ++ [ {| item := it; quantity := 1 |} ].
Proof.
  intros H. unfold handleAddItem.
  apply find_none_iff in H. now rewrite H.
Qed.

(** Adding an item whose id the cart has bumps the lines with that id
    and keeps their catalog fields. *)
Lemma handleAddItem_present (it : MenuItem) (cart : list OrderItem) :
  In (id it) (ids cart) ->
  handleAddItem it cart =
  map (fun i => if has_id (id it) i
                then {| item := item i; quantity := quantity i + 1 |}
                else i) cart.
Proof.
  intros H. unfold handleAddItem.
  apply find_some_iff in H. destruct H as [i Hi]. now rewrite Hi.
Qed.

Lemma lines_of_app (k : Z) (c1 c2 : list OrderItem) :
  lines_of k (c1 ++ c2) = lines_of k c1 ++ lines_of k c2.
Proof. unfold lines_of. apply filter_app. Qed.

Lemma lines_of_in (k : Z) (cart : list OrderItem) (l : OrderItem) :
  In l (lines_of k cart) -> In k (ids cart).
Proof.
  unfold lines_of. intros H. apply filter_In in H. destruct H as [Hin Hid].
  apply has_id_true in Hid. subst k.
  now apply (in_map (fun i => id (item i))).
Qed.

(** The lines with the id after a bump are the bumped lines. *)
Lemma lines_of_bump (k : Z) (cart : list OrderItem) :
  lines_of k (map (fun i => if has_id k i
                            then {| item := item i; quantity := quantity i + 1 |}
                            else i) cart)
  = map (fun i => {| item := item i; quantity := quantity i + 1 |})
        (lines_of k cart).
Proof.
  induction cart as [|i cart IH]; simpl; auto.
  destruct (has_id k i) eqn:E; simpl.
  - unfold has_id in *. simpl. rewrite E. simpl. now f_equal.
  - rewrite E. exact IH.
Qed.

(** The lines with other ids are not touched by an add. *)
Lemma others_handleAddItem (it : MenuItem) (cart : list OrderItem) :
  filter (fun i => negb (has_id (id it) i)) (handleAddItem it cart)
  = filter (fun i => negb (has_id (id it) i)) cart.
Proof.
  unfold handleAddItem. destruct (find (has_id (id it)) cart) as [e|].
  - induction cart as [|i cart IH]; simpl; auto.
    destruct (has_id (id it) i) eqn:E; simpl.
    + unfold has_id in *. simpl. rewrite E. simpl. exact IH.
    + rewrite E. simpl. now f_equal.
  - rewrite filter_app. simpl.
    unfold has_id at 2. simpl. rewrite Z.eqb_refl. simpl.
    apply app_nil_r.
Qed.

(** Adds of one id, one after the other. *)
Lemma adds_same_id (k : Z) (rest : list MenuItem) :
  Forall (fun it => id it = k) rest ->
  forall (cart : list OrderItem) (l : OrderItem),
    lines_of k cart = [l] ->
    lines_of k (fold_left (fun c it => handleAddItem it c) rest cart)
    = [ {| item := item l;
           quantity := quantity l + Z.of_nat (List.length rest) |} ]
    /\ filter (fun i => negb (has_id k i))
              (fold_left (fun c it => handleAddItem it c) rest cart)
       = filter (fun i => negb (has_id k i)) cart.
Proof.
  induction rest as [|it rest IH]; intros Hall cart l Hl.
  - simpl. rewrite Z.add_0_r. split; auto. rewrite Hl. now destruct l.
  - inversion Hall as [|? ? Hid Hrest]; subst.
    assert (Hin : In (id it) (ids cart)).
    { apply (lines_of_in _ _ l). rewrite Hl. now left. }
    cbn [fold_left].
    destruct (IH Hrest (handleAddItem it cart)
                 {| item := item l; quantity := quantity l + 1 |}) as [H1 H2].
    { rewrite (handleAddItem_present _ _ Hin), lines_of_bump, Hl.
      reflexivity. }
    split.
    + rewrite H1. cbn [item quantity List.length]. do 2 f_equal. lia.
    + rewrite H2. apply others_handleAddItem.
Qed.

(** C4: [n >= 1] adds carrying one id, made on a cart that has no line
    with that id, leave exactly one line with it; the line has quantity
    [n] and the catalog fields (the price among them) of the item given
    to the first add, whatever the later adds carried.  The lines with
    other ids are as before. *)
Theorem add_same_id_quantity_and_first_price
        (cart : list OrderItem) (first : MenuItem) (rest : list MenuItem) :
  ~ In (id first) (ids cart) ->
  Forall (fun it => id it = id first) rest ->
  let cart' := fold_left (fun c it => handleAddItem it c) (first :: rest) cart in
  lines_of (id first) cart'
  = [ {| item := first;
         quantity := Z.of_nat (List.length (first :: rest)) |} ]
  /\ price (item (hd {| item := first; quantity := 0 |}
                     (lines_of (id first) cart'))) = price first
  /\ filter (fun i => negb (has_id (id first) i)) cart' = cart.
Proof.
  intros Hfresh Hall cart'. subst cart'. cbn [fold_left].
  rewrite (handleAddItem_fresh _ _ Hfresh).
  destruct (adds_same_id (id first) rest Hall
              (cart ++ [ {| item := first; quantity := 1 |} ])
              {| item := first; quantity := 1 |}) as [H1 H2].
  { rewrite lines_of_app, (lines_of_none _ _ Hfresh). simpl.
    unfold has_id. simpl. now rewrite Z.eqb_refl. }
  assert (Hq : 1 + Z.of_nat (List.length rest)
               = Z.of_nat (List.length (first :: rest))).
  { cbn [List.length]. lia. }
  cbn [item quantity] in H1. rewrite Hq in H1.
  split; [exact H1 | split].
  - rewrite H1. reflexivity.
  - rewrite H2, filter_app. simpl.
    unfold has_id at 2. simpl. rewrite Z.eqb_refl. simpl.
    rewrite app_nil_r.
    clear - Hfresh. induction cart as [|i cart IH]; simpl; auto.
    destruct (has_id (id first) i) eqn:E.
    + apply has_id_true in E. exfalso. apply Hfresh. now left.
    + simpl. f_equal. apply IH. intros H. apply Hfresh. now right.
Qed.

Lemma add_same_id_quantity_and_first_price_witness :
  ~ In (id Samples.soup) (ids [ {| item := Samples.bun; quantity := 4 |} ])
  /\ Forall (fun it => id it = id Samples.soup) [Samples.soup'; Samples.soup]
  /\ lines_of (id Samples.soup)
       (fold_left (fun c it => handleAddItem it c)
                  [Samples.soup; Samples.soup'; Samples.soup]
                  [ {| item := Samples.bun; quantity := 4 |} ])
     = [ {| item := Samples.soup; quantity := 3 |} ].
Proof.
  assert (H1 : ~ In (id Samples.soup)
                    (ids [ {| item := Samples.bun; quantity := 4 |} ])).
  { simpl. intros [H | []]. discriminate. }
  assert (H2 : Forall (fun it => id it = id Samples.soup)
                      [Samples.soup'; Samples.soup]).
  { repeat constructor. }
  split; [exact H1 | split; [exact H2 |]].
  exact (proj1
    (add_same_id_quantity_and_first_price
       [ {| item := Samples.bun; quantity := 4 |} ]
       Samples.soup [Samples.soup'; Samples.soup] H1 H2)).
Defined.


(** C7: [updateQuantity(id, q)] with [q < 1] leaves the cart as it is;
    with [q >= 1] it gives every line with that id the quantity [q],
    keeps the other fields of that line, and keeps every other line and
    the order of the lines; on a cart without that id it changes
    nothing. *)
Theorem updateQuantity_cases (k q : Z) (cart : list OrderItem) :
  (q < 1 -> handleUpdateQuantity k q cart = cart)
  /\ (1 <= q ->
      forall (n : nat) (l : OrderItem),
        nth_error cart n = Some l ->
        nth_error (handleUpdateQuantity k q cart) n
        = Some (if has_id k l
                then {| item := item l; quantity := q |}
                else l))
  /\ (1 <= q ->
      List.length (handleUpdateQuantity k q cart) = List.length cart)
  /\ (~ In k (ids cart) -> handleUpdateQuantity k q cart = cart).
Proof.
  unfold handleUpdateQuantity. repeat split.
  - intros H. apply Z.ltb_lt in H. now rewrite H.
  - intros H n l Hn. apply Z.ltb_ge in H. rewrite H.
    rewrite nth_error_map, Hn. reflexivity.
  - intros H. apply Z.ltb_ge in H. rewrite H. apply length_map.
  - intros H. destruct (q <? 1); auto.
    induction cart as [|i cart IH]; simpl; auto.
    destruct (has_id k i) eqn:E.
    + apply has_id_true in E. exfalso. apply H. now left.
    + f_equal. apply IH. intros Hin. apply H. now right.
Qed.

Lemma updateQuantity_cases_witness :
  (0 < 1 /\ handleUpdateQuantity 1 0 Samples.cart = Samples.cart)
  /\ (1 <= 3
      /\ nth_error Samples.cart 0 = Some {| item := Samples.soup; quantity := 2 |}
      /\ nth_error (handleUpdateQuantity 1 3 Samples.cart) 0
         = Some {| item := Samples.soup; quantity := 3 |})
  /\ (~ In 7 (ids Samples.cart)
      /\ handleUpdateQuantity 7 3 Samples.cart = Samples.cart).
Proof.
  assert (H1 : 0 < 1) by lia.
  assert (H2 : 1 <= 3) by lia.
  assert (H3 : ~ In 7 (ids Samples.cart)).
  { simpl. intros [H | []]. discriminate. }
  split; [split; [exact H1|] | split; [split; [exact H2 | split;
    [reflexivity|]] | split; [exact H3|]]].
  - exact (proj1 (updateQuantity_cases 1 0 Samples.cart) H1).
  - exact (proj1 (proj2 (updateQuantity_cases 1 3 Samples.cart)) H2 0%nat
             {| item := Samples.soup; quantity := 2 |} eq_refl).
  - exact (proj2 (proj2 (proj2 (updateQuantity_cases 7 3 Samples.cart))) H3).
Defined.

End CartFacts.

(** * Whole numbers in binary64 *)

Module NumberFacts.

(** The number of binary digits is [Pos.size]. *)
Lemma digits2_pos_size (p : positive) : digits2_pos p = Pos.size p.
Proof. induction p; simpl; congruence. Qed.

(** The number of binary digits of a positive integer, by its logarithm. *)
Lemma Zdigits2_log2 (p : positive) :
  Zdigits2 (Zpos p) = Z.log2 (Zpos p) + 1.
Proof.
  unfold Zdigits2. rewrite digits2_pos_size.
  destruct p; simpl; lia.
Qed.

(** Halving an even mantissa loses nothing. *)
Lemma shr_1_double (z : Z) :
  shr_1 {| shr_m := 2 * z; shr_r := false; shr_s := false |}
  = {| shr_m := z; shr_r := false; shr_s := false |}.
Proof. now destruct z. Qed.

(** Shifting out [p] zero bits loses nothing. *)
Lemma iter_shr_1_exact (p : positive) :
  forall z : Z,
    iter_pos shr_1 p {| shr_m := z * 2 ^ Zpos p; shr_r := false; shr_s := false |}
    = {| shr_m := z; shr_r := false; shr_s := false |}.
Proof.
  induction p as [p IH|p IH|]; intros z.
  - cbn [iter_pos].
    replace (z * 2 ^ Zpos p~1) with (2 * ((z * 2 ^ Zpos p) * 2 ^ Zpos p)).
    + now rewrite shr_1_double, !IH.
    + replace (Zpos p~1) with (Zpos p + Zpos p + 1) by lia.
      rewrite !Z.pow_add_r, Z.pow_1_r by lia. ring.
  - cbn [iter_pos].
    replace (z * 2 ^ Zpos p~0) with ((z * 2 ^ Zpos p) * 2 ^ Zpos p).
    + now rewrite !IH.
    + replace (Zpos p~0) with (Zpos p + Zpos p) by lia.
      rewrite Z.pow_add_r by lia. ring.
  - cbn [iter_pos]. replace (z * 2 ^ 1) with (2 * z) by lia.
    apply shr_1_double.
Qed.

(** Appending [d] zero bits multiplies by [2^d]. *)
Lemma iter_xO_pow2 (m d : positive) :
  Zpos (Pos.iter xO m d) = Zpos m * 2 ^ Zpos d.
Proof.
  revert m. induction d as [|d IH] using Pos.peano_ind; intros m.
  - simpl. lia.
  - rewrite Pos.iter_succ, Pos2Z.inj_xO, IH, Pos2Z.inj_succ, Z.pow_succ_r by lia.
    ring.
Qed.

(** Rounding a mantissa that is a canonical one followed by [k] zero
    bits gives the canonical one back: nothing is rounded away. *)
Lemma binary_round_aux_exact (s : bool) (n : positive) (f k : Z) (m : positive) :
  canonical n f -> 0 <= k -> Zpos m = Zpos n * 2 ^ k ->
  binary_round_aux prec emax s (Zpos m) (f - k) loc_Exact = S754_finite s n f.
Proof.
  intros [Hc Hb] Hk Hm.
  unfold binary_round_aux, shr_fexp.
  assert (Hd : Zdigits2 (Zpos m) + (f - k) = Zdigits2 (Zpos n) + f).
  { rewrite !Zdigits2_log2, Hm, Z.log2_mul_pow2 by lia. lia. }
  rewrite Hd, Hc.
  replace (f - (f - k)) with k by lia.
  cbn [shr_record_of_loc].
  assert (Hshr : shr {| shr_m := Zpos m; shr_r := false; shr_s := false |} (f - k) k
                 = ({| shr_m := Zpos n; shr_r := false; shr_s := false |}, f)).
  { unfold shr. destruct k as [|p|p]; try lia.
    - f_equal; [f_equal; lia | lia].
    - rewrite Hm, iter_shr_1_exact. f_equal. lia. }
  rewrite Hshr. cbn [shr_m loc_of_shr_record round_nearest_even].
  rewrite Hc, Z.sub_diag. cbn [shr shr_record_of_loc shr_m].
  apply Z.leb_le in Hb. now rewrite Hb.
Qed.

(** The same for [binary_round], which may also have to shift to the
    left first. *)
Lemma binary_round_exact (s : bool) (m : positive) (e : Z) (n : positive) (f : Z) :
  canonical n f ->
  (e <= f /\ Zpos m = Zpos n * 2 ^ (f - e))
  \/ (f < e /\ Zpos n = Zpos m * 2 ^ (e - f)) ->
  binary_round prec emax s m e = S754_finite s n f.
Proof.
  intros Hc H. unfold binary_round.
  assert (Hd : Zpos (digits2_pos m) + e = Zdigits2 (Zpos n) + f).
  { change (Zpos (digits2_pos m)) with (Zdigits2 (Zpos m)).
    rewrite !Zdigits2_log2.
    destruct H as [[Hle Hm] | [Hlt Hn]].
    - rewrite Hm, Z.log2_mul_pow2 by lia. lia.
    - rewrite Hn, Z.log2_mul_pow2 by lia. lia. }
  rewrite Hd. destruct Hc as [Hc Hb]. rewrite Hc.
  unfold shl_align.
  destruct H as [[Hle Hm] | [Hlt Hn]].
  - destruct (f - e) as [|p|p] eqn:E; try lia.
    + replace e with (f - 0) by lia.
      apply binary_round_aux_exact; [now split | lia | exact Hm].
    + replace e with (f - Zpos p) by lia.
      apply binary_round_aux_exact; [now split | lia | exact Hm].
  - destruct (f - e) as [|p|p] eqn:E; try lia.
    rewrite <- (Z.sub_0_r f) at 1.
    apply binary_round_aux_exact; [now split | lia |].
    rewrite iter_xO_pow2, Hn, Z.pow_0_r, Z.mul_1_r.
    do 2 f_equal. lia.
Qed.

(** A whole number below [2^53] has at most 53 digits. *)
Lemma small_log2 (z : Z) : small z -> 0 <= Z.log2 z <= 52.
Proof.
  intros [H0 H1]. split; [apply Z.log2_nonneg|].
  apply Z.log2_lt_pow2 in H1; lia.
Qed.

(** The mantissa is the number shifted up to 53 digits. *)
Lemma mantissa_spec (z : Z) :
  small z -> Zpos (mantissa z) = z * 2 ^ (52 - Z.log2 z).
Proof.
  intros H. pose proof (small_log2 z H) as Hl. destruct H as [H0 H1].
  unfold mantissa. rewrite Z2Pos.id; auto.
  apply Z.mul_pos_pos; auto. apply Z.pow_pos_nonneg; lia.
Qed.

(** Mantissa and exponent of a whole number are canonical. *)
Lemma canonical_whole (z : Z) :
  small z -> canonical (mantissa z) (exponent z).
Proof.
  intros H. pose proof (small_log2 z H) as Hl.
  unfold canonical, exponent.
  rewrite Zdigits2_log2, (mantissa_spec z H), Z.log2_mul_pow2 by (destruct H; lia).
  unfold fexp, emin, prec, emax. split; lia.
Qed.

(** The number a whole number below [2^53] denotes. *)
Lemma of_Z_whole (z : Z) :
  small z -> of_Z z = S754_finite false (mantissa z) (exponent z).
Proof.
  intros H. pose proof (small_log2 z H) as Hl.
  pose proof (mantissa_spec z H) as Hm.
  destruct z as [|p|p]; try (destruct H; lia).
  unfold of_Z, binary_normalize.
  apply binary_round_exact; [now apply canonical_whole|].
  unfold exponent.
  destruct (Z.eq_dec (Z.log2 (Zpos p)) 52) as [E|E].
  - left. split; [lia|]. rewrite Hm, E. simpl. lia.
  - right. split; [lia|]. rewrite Hm. do 2 f_equal. lia.
Qed.

(** Powers of two multiply by adding exponents. *)
Lemma pow2_add (i j : Z) : 0 <= i -> 0 <= j -> 2 ^ i * 2 ^ j = 2 ^ (i + j).
Proof. intros. now rewrite Z.pow_add_r. Qed.

(** The product of two positive whole numbers is exact when it fits. *)
Lemma mul_of_Z_small (a b : Z) :
  small a -> small b -> small (a * b) ->
  mul (of_Z a) (of_Z b) = of_Z (a * b).
Proof.
  intros Ha Hb Hab.
  pose proof (small_log2 a Ha) as Hla.
  pose proof (small_log2 b Hb) as Hlb.
  pose proof (small_log2 _ Hab) as Hlab.
  assert (Hmono : Z.log2 b <= Z.log2 (a * b)).
  { apply Z.log2_le_mono. destruct Ha, Hb. nia. }
  rewrite (of_Z_whole a Ha), (of_Z_whole b Hb), (of_Z_whole _ Hab).
  unfold mul, SFmul. cbn [xorb].
  replace (exponent a + exponent b)
    with (exponent (a * b) - (exponent (a * b) - exponent a - exponent b))
    by lia.
  apply binary_round_aux_exact.
  - now apply canonical_whole.
  - unfold exponent. lia.
  - rewrite Pos2Z.inj_mul, !mantissa_spec by assumption.
    unfold exponent.
    transitivity (a * b * (2 ^ (52 - Z.log2 a) * 2 ^ (52 - Z.log2 b))); [ring|].
    rewrite <- (Z.mul_assoc (a * b)), !pow2_add by lia.
    do 2 f_equal. lia.
Qed.

(** Aligning a mantissa to a smaller exponent. *)
Lemma shl_align_fst (mx : positive) (ex ez : Z) :
  ez <= ex -> Zpos (fst (shl_align mx ex ez)) = Zpos mx * 2 ^ (ex - ez).
Proof.
  intros H. unfold shl_align.
  destruct (ez - ex) as [|p|p] eqn:E; try lia.
  - replace (ex - ez) with 0 by lia. simpl. lia.
  - cbn [fst]. rewrite iter_xO_pow2. do 2 f_equal. lia.
Qed.

(** The sum of two positive whole numbers is exact when it fits. *)
Lemma add_of_Z_small (a b : Z) :
  small a -> small b -> small (a + b) ->
  add (of_Z a) (of_Z b) = of_Z (a + b).
Proof.
  intros Ha Hb Hab.
  pose proof (small_log2 a Ha) as Hla.
  pose proof (small_log2 b Hb) as Hlb.
  pose proof (small_log2 _ Hab) as Hlab.
  assert (Hma : Z.log2 a <= Z.log2 (a + b)).
  { apply Z.log2_le_mono. destruct Ha, Hb. lia. }
  assert (Hmb : Z.log2 b <= Z.log2 (a + b)).
  { apply Z.log2_le_mono. destruct Ha, Hb. lia. }
  rewrite (of_Z_whole a Ha), (of_Z_whole b Hb), (of_Z_whole _ Hab).
  unfold add, SFadd. cbn [cond_Zopp].
  set (ez := Z.min (exponent a) (exponent b)).
  assert (Hez : ez <= exponent a /\ ez <= exponent b) by (subst ez; lia).
  rewrite !shl_align_fst, !mantissa_spec by tauto.
  assert (Hsum : a * 2 ^ (52 - Z.log2 a) * 2 ^ (exponent a - ez)
                 + b * 2 ^ (52 - Z.log2 b) * 2 ^ (exponent b - ez)
                 = (a + b) * 2 ^ (- ez)).
  { unfold exponent in *.
    rewrite <- !Z.mul_assoc, !pow2_add by lia.
    replace (52 - Z.log2 a + (Z.log2 a - 52 - ez)) with (- ez) by lia.
    replace (52 - Z.log2 b + (Z.log2 b - 52 - ez)) with (- ez) by lia.
    ring. }
  rewrite Hsum.
  assert (Hpos : 0 < (a + b) * 2 ^ (- ez)).
  { apply Z.mul_pos_pos; [destruct Hab; lia|].
    apply Z.pow_pos_nonneg; unfold exponent in *; lia. }
  destruct ((a + b) * 2 ^ (- ez)) as [|S|S] eqn:ES; try lia.
  unfold binary_normalize.
  apply binary_round_exact; [now apply canonical_whole|].
  left. unfold exponent in *. split; [lia|].
  rewrite mantissa_spec by assumption.
  rewrite <- Z.mul_assoc, pow2_add by lia.
  rewrite <- ES. do 2 f_equal. lia.
Qed.

(** Below [2^53] a natural number is zero or [small]. *)
Lemma small_or_zero (z : Z) : 0 <= z < 2 ^ 53 -> z = 0 \/ small z.
Proof. unfold small. lia. Qed.

(** The product of two whole numbers is exact when it fits. *)
Lemma mul_of_Z (a b : Z) :
  0 <= a < 2 ^ 53 -> 0 <= b < 2 ^ 53 -> a * b < 2 ^ 53 ->
  mul (of_Z a) (of_Z b) = of_Z (a * b).
Proof.
  intros Ha Hb Hab.
  destruct (small_or_zero a Ha) as [-> | Sa];
    destruct (small_or_zero b Hb) as [-> | Sb].
  - reflexivity.
  - now rewrite (of_Z_whole b Sb).
  - rewrite (of_Z_whole a Sa), Z.mul_0_r. reflexivity.
  - apply mul_of_Z_small; auto.
    destruct Sa, Sb. split; auto. nia.
Qed.

(** The sum of two whole numbers is exact when it fits. *)
Lemma add_of_Z (a b : Z) :
  0 <= a -> 0 <= b -> a + b < 2 ^ 53 ->
  add (of_Z a) (of_Z b) = of_Z (a + b).
Proof.
  intros Ha Hb Hab.
  assert (Ha' : 0 <= a < 2 ^ 53) by lia.
  assert (Hb' : 0 <= b < 2 ^ 53) by lia.
  destruct (small_or_zero a Ha') as [-> | Sa];
    destruct (small_or_zero b Hb') as [-> | Sb].
  - reflexivity.
  - rewrite Z.add_0_l, (of_Z_whole b Sb). reflexivity.
  - rewrite Z.add_0_r, (of_Z_whole a Sa). reflexivity.
  - apply add_of_Z_small; auto.
    destruct Sa, Sb. split; lia.
Qed.

(** A whole number stands for itself. *)
Lemma value_of_Z (z : Z) :
  0 <= z < 2 ^ 53 ->
  exists v, value (of_Z z) = Some v /\ (v == inject_Z z)%Q.
Proof.
  intros Hz. destruct (small_or_zero z Hz) as [-> | Sz].
  - exists 0%Q. split; reflexivity.
  - pose proof (small_log2 z Sz) as Hl.
    pose proof (mantissa_spec z Sz) as Hm.
    rewrite (of_Z_whole z Sz). cbn [value]. eexists; split; [reflexivity|].
    unfold exponent.
    destruct (0 <=? Z.log2 z - 52) eqn:E.
    + apply Z.leb_le in E. rewrite Hm.
      replace (Z.log2 z - 52) with 0 by lia.
      replace (52 - Z.log2 z) with 0 by lia.
      rewrite Z.pow_0_r, !Z.mul_1_r. reflexivity.
    + apply Z.leb_gt in E.
      unfold Qeq. cbn [Qnum Qden inject_Z].
      rewrite Z2Pos.id by (apply Z.pow_pos_nonneg; lia).
      rewrite Hm, Z.mul_1_r. do 2 f_equal. lia.
Qed.

End NumberFacts.

(** * Properties of the total *)

Module TotalFacts.
Import Cart.

Local Open Scope Q_scope.

Lemma same_true (x y : option Q) :
  Exact.same x y = true ->
  exists a b, x = Some a /\ y = Some b /\ a == b.
Proof.
  destruct x as [a|], y as [b|]; simpl; try discriminate.
  intros H. apply Qeq_bool_iff in H. eauto.
Qed.

(** A round that does not round adds the exact product. *)
Lemma step_exact_value (sum : number) (i : OrderItem) (vs : Q) :
  value sum = Some vs ->
  Exact.step_exact sum i = true ->
  exists vp v,
    value (price (item i)) = Some vp
    /\ value (add sum (mul (price (item i)) (of_Z (quantity i)))) = Some v
    /\ v == vs + vp * inject_Z (quantity i).
Proof.
  intros Hs H. unfold Exact.step_exact in H. rewrite Hs in H.
  destruct (value (price (item i))) as [vp|]; [|discriminate].
  apply andb_prop in H. destruct H as [_ H].
  apply same_true in H. destruct H as [a [b [Ha [Hb Hab]]]].
  injection Hb as <-. exists vp, a. auto.
Qed.

(** Without rounding, the [reduce] from [sum] ends at [sum] plus the
    exact total. *)
Lemma no_rounding_from_value (cart : list OrderItem) :
  forall (sum : number) (vs : Q),
    value sum = Some vs ->
    Exact.no_rounding_from sum cart = true ->
    exists v t,
      value (fold_left
               (fun sum i => add sum (mul (price (item i)) (of_Z (quantity i))))
               cart sum) = Some v
      /\ Exact.total cart = Some t
      /\ v == vs + t.
Proof.
  induction cart as [|i cart IH]; intros sum vs Hs H.
  - exists vs, 0. simpl. repeat split; auto. ring.
  - cbn [Exact.no_rounding_from] in H. apply andb_prop in H.
    destruct H as [Hstep Hrest].
    destruct (step_exact_value _ _ _ Hs Hstep) as [vp [v1 [Hp [Hv1 E1]]]].
    destruct (IH _ _ Hv1 Hrest) as [v [t [Hv [Ht E]]]].
    exists v, (vp * inject_Z (quantity i) + t).
    cbn [fold_left Exact.total]. rewrite Hp, Ht.
    repeat split; auto.
    rewrite E, E1. ring.
Qed.

(** The exact total does not depend on the order of the lines. *)
Lemma exact_total_permutation (c1 c2 : list OrderItem) :
  Permutation c1 c2 ->
  forall t1, Exact.total c1 = Some t1 ->
  exists t2, Exact.total c2 = Some t2 /\ t1 == t2.
Proof.
  induction 1 as [|x l l' Hp IH|x y l|l l' l'' H1 IH1 H2 IH2]; intros t1 Ht.
  - exists t1. split; auto. reflexivity.
  - cbn [Exact.total] in *.
    destruct (value (price (item x))) as [vp|]; [|discriminate].
    destruct (Exact.total l) as [tl|]; [|discriminate].
    destruct (IH tl eq_refl) as [tl' [Htl' E]].
    rewrite Htl'. injection Ht as <-.
    eexists; split; eauto. now rewrite E.
  - cbn [Exact.total] in *.
    destruct (value (price (item x))) as [vx|]; [|destruct (value (price (item y))); discriminate].
    destruct (value (price (item y))) as [vy|]; [|discriminate].
    destruct (Exact.total l) as [tl|]; [|discriminate].
    injection Ht as <-. eexists; split; eauto. ring.
  - destruct (IH1 _ Ht) as [t2 [Ht2 E2]].
    destruct (IH2 _ Ht2) as [t3 [Ht3 E3]].
    exists t3. split; auto. now rewrite E2.
Qed.

Lemma same_intro (x : option Q) (a b : Q) :
  x = Some a -> a == b -> Exact.same x (Some b) = true.
Proof.
  intros -> H. simpl. now apply Qeq_bool_iff.
Qed.

Lemma whole_total_nonneg (units : OrderItem -> Z) (cart : list OrderItem) :
  Exact.whole_prices units cart -> (0 <= Exact.whole_total units cart)%Z.
Proof.
  induction 1 as [|l cart [_ [Hu Hq]] _ IH]; simpl; [lia | nia].
Qed.

(** With whole prices and a total below [2^53], the [reduce] started
    at a whole number stays on whole numbers. *)
Lemma calculateTotal_whole_from
      (units : OrderItem -> Z) (cart : list OrderItem) :
  Exact.whole_prices units cart ->
  forall acc : Z,
    (0 <= acc)%Z ->
    (acc + Exact.whole_total units cart < 2 ^ 53)%Z ->
    fold_left
      (fun sum i => add sum (mul (price (item i)) (of_Z (quantity i))))
      cart (of_Z acc)
    = of_Z (acc + Exact.whole_total units cart)
    /\ Exact.no_rounding_from (of_Z acc) cart = true.
Proof.
  induction 1 as [|l cart [Hp [Hu Hq]] Hrest IH]; intros acc Hacc Hsum.
  - simpl. now rewrite Z.add_0_r.
  - pose proof (whole_total_nonneg units cart Hrest) as Hnn.
    cbn [Exact.whole_total fold_right] in Hsum.
    fold (Exact.whole_total units cart) in Hsum.
    assert (Hprod : (0 <= units l * quantity l)%Z) by nia.
    assert (Hm : mul (price (item l)) (of_Z (quantity l))
                 = of_Z (units l * quantity l)).
    { rewrite Hp. apply NumberFacts.mul_of_Z; auto. lia. }
    assert (Ha : add (of_Z acc) (of_Z (units l * quantity l))
                 = of_Z (acc + units l * quantity l)).
    { apply NumberFacts.add_of_Z; auto. lia. }
    cbn [fold_left Exact.no_rounding_from].
    rewrite Hm, Ha.
    destruct (IH (acc + units l * quantity l)%Z) as [IH1 IH2]; [lia | lia |].
    split.
    + rewrite IH1. cbn [Exact.whole_total fold_right]. f_equal.
      fold (Exact.whole_total units cart). lia.
    + rewrite IH2, andb_true_r.
      unfold Exact.step_exact. rewrite Hm, Ha, Hp.
      destruct (NumberFacts.value_of_Z acc) as [vs [Hvs Evs]]; [lia|].
      destruct (NumberFacts.value_of_Z (units l)) as [vp [Hvp Evp]]; [lia|].
      destruct (NumberFacts.value_of_Z (quantity l)) as [vq [Hvq Evq]]; [lia|].
      destruct (NumberFacts.value_of_Z (units l * quantity l))
        as [vm [Hvm Evm]]; [lia|].
      destruct (NumberFacts.value_of_Z (acc + units l * quantity l))
        as [va [Hva Eva]]; [lia|].
      rewrite Hvs, Hvp.
      rewrite (same_intro _ _ _ Hvq Evq).
      rewrite (same_intro _ vm (vp * inject_Z (quantity l)) Hvm).
      2:{ rewrite Evm, Evp, inject_Z_mult. reflexivity. }
      rewrite (same_intro _ va (vs + vp * inject_Z (quantity l)) Hva).
      2:{ rewrite Eva, Evs, Evp, inject_Z_plus, inject_Z_mult. reflexivity. }
      reflexivity.
Qed.

(** With whole prices and a total below [2^53], [total()] is that
    total, and no round of the [reduce] rounds. *)
Lemma calculateTotal_whole (units : OrderItem -> Z) (cart : list OrderItem) :
  Exact.whole_prices units cart ->
  (Exact.whole_total units cart < 2 ^ 53)%Z ->
  calculateTotal cart = of_Z (Exact.whole_total units cart)
  /\ Exact.no_rounding cart = true.
Proof.
  intros Hw Hlt.
  exact (calculateTotal_whole_from units cart Hw 0%Z (Z.le_refl 0) Hlt).
Qed.

Lemma whole_total_permutation
      (units : OrderItem -> Z) (c1 c2 : list OrderItem) :
  Permutation c1 c2 ->
  Exact.whole_total units c1 = Exact.whole_total units c2.
Proof.
  unfold Exact.whole_total.
  induction 1; simpl; lia.
Qed.

(** With whole prices and a total below [2^53], the order of the lines
    does not matter to [total()]. *)
Lemma calculateTotal_whole_permutation
      (units : OrderItem -> Z) (c1 c2 : list OrderItem) :
  Exact.whole_prices units c1 ->
  (Exact.whole_total units c1 < 2 ^ 53)%Z ->
  Permutation c1 c2 ->
  calculateTotal c1 = calculateTotal c2.
Proof.
  intros Hw Hlt Hp.
  assert (Hw2 : Exact.whole_prices units c2).
  { unfold Exact.whole_prices in *. eapply Permutation_Forall; eauto. }
  pose proof (whole_total_permutation units _ _ Hp) as E.
  destruct (calculateTotal_whole units c1 Hw Hlt) as [-> _].
  destruct (calculateTotal_whole units c2 Hw2) as [-> _]; [lia|].
  now rewrite E.
Qed.

(** C5, as the code has it: [total()] is the [reduce] of lines 63-65,
    a sum from [0] taken line by line in cart order in binary64
    arithmetic.  Whenever no round of it rounds, its value is the exact
    sum of price times quantity over the lines, and it is the same for
    every other order of the same lines in which no round rounds
    either. *)
Theorem total_exact_when_nothing_rounds (cart : list OrderItem) (i : OrderItem) :
  Exact.no_rounding cart = true ->
  calculateTotal [] = zero
  /\ calculateTotal (cart ++ [i])
     = add (calculateTotal cart) (mul (price (item i)) (of_Z (quantity i)))
  /\ (exists v t,
         value (calculateTotal cart) = Some v
         /\ Exact.total cart = Some t
         /\ v == t)
  /\ (forall cart',
         Permutation cart cart' ->
         Exact.no_rounding cart' = true ->
         exists v v',
           value (calculateTotal cart) = Some v
           /\ value (calculateTotal cart') = Some v'
           /\ v == v').
Proof.
  intros H.
  assert (Hz : value zero = Some 0) by reflexivity.
  destruct (no_rounding_from_value cart zero 0 Hz H) as [v [t [Hv [Ht E]]]].
  split; [reflexivity | split; [| split]].
  - unfold calculateTotal. now rewrite fold_left_app.
  - exists v, t. repeat split; auto. rewrite E. ring.
  - intros cart' Hp H'.
    destruct (no_rounding_from_value cart' zero 0 Hz H') as [v' [t' [Hv' [Ht' E']]]].
    destruct (exact_total_permutation _ _ Hp _ Ht) as [t2 [Ht2 E2]].
    rewrite Ht' in Ht2. injection Ht2 as <-.
    exists v, v'. repeat split; auto.
    rewrite E, E', E2. reflexivity.
Qed.

(** Witness of [total_exact_when_nothing_rounds]: the cart with two
    portions at 5.00. *)
Lemma total_exact_when_nothing_rounds_witness :
  Exact.no_rounding Samples.cart = true
  /\ exists v t,
       value (calculateTotal Samples.cart) = Some v
       /\ Exact.total Samples.cart = Some t
       /\ v == t.
Proof.
  split; [reflexivity|].
  exact (proj1 (proj2 (proj2
    (total_exact_when_nothing_rounds Samples.cart
       {| item := Samples.bun; quantity := 1 |} eq_refl)))).
Defined.

(** C5 fails as stated.  Adding the items priced 0.10, 0.20 and 0.30
    in this order and in the reverse order gives the same lines, but
    the totals 0.6000000000000001 and 0.6; and three adds of the item
    priced 0.10 give the total 0.30000000000000004, which is neither
    the number 0.3 nor the exact sum of the stored prices. *)
Lemma total_rounds_and_depends_on_order :
  Permutation (run [] [Add Samples.tea; Add Samples.bun; Add Samples.jam])
              (run [] [Add Samples.jam; Add Samples.bun; Add Samples.tea])
  /\ calculateTotal (run [] [Add Samples.tea; Add Samples.bun; Add Samples.jam])
     = S754_finite false 5404319552844596 (-53)
  /\ calculateTotal (run [] [Add Samples.jam; Add Samples.bun; Add Samples.tea])
     = S754_finite false 5404319552844595 (-53)
  /\ calculateTotal (run [] [Add Samples.tea; Add Samples.bun; Add Samples.jam])
     <> calculateTotal (run [] [Add Samples.jam; Add Samples.bun; Add Samples.tea])
  /\ calculateTotal (run [] [Add Samples.tea; Add Samples.tea; Add Samples.tea])
     = S754_finite false 5404319552844596 (-54)
  /\ calculateTotal (run [] [Add Samples.tea; Add Samples.tea; Add Samples.tea])
     <> decimal 3 1
  /\ Exact.same
       (value (calculateTotal
                 (run [] [Add Samples.tea; Add Samples.tea; Add Samples.tea])))
       (Exact.total (run [] [Add Samples.tea; Add Samples.tea; Add Samples.tea]))
     = false.
Proof.
  repeat split; try reflexivity; try (vm_compute; discriminate).
  vm_compute.
  apply perm_trans with
    (l' := [ {| item := Samples.bun; quantity := 1 |};
             {| item := Samples.tea; quantity := 1 |};
             {| item := Samples.jam; quantity := 1 |} ]).
  - apply perm_swap.
  - apply perm_trans with
      (l' := [ {| item := Samples.bun; quantity := 1 |};
               {| item := Samples.jam; quantity := 1 |};
               {| item := Samples.tea; quantity := 1 |} ]).
    + apply perm_skip. apply perm_swap.
    + apply perm_swap.
Qed.

End TotalFacts.

(** * Properties of the submitter and of the loader *)

Module OrderSystemFacts.
Import OrderSystem.

(** The guard of line 68 lets a call through exactly when there is a
    user, the cart has a line and nothing is in flight. *)
Lemma guard_false_iff (s : State) :
  guard s = false
  <-> user s <> None /\ orderItems s <> [] /\ submitting s = false.
Proof.
  unfold guard.
  destruct (user s) as [u|], (orderItems s) as [|i c], (submitting s);
    simpl; split; try discriminate; try tauto;
    try (intros _; repeat split; discriminate);
    intros [H1 [H2 H3]]; congruence.
Qed.

Lemma guard_true_iff (s : State) :
  guard s = true
  <-> user s = None \/ orderItems s = [] \/ submitting s = true.
Proof.
  unfold guard.
  destruct (user s) as [u|], (orderItems s) as [|i c], (submitting s);
    simpl; split; auto; try discriminate;
    intros [H | [H | H]]; discriminate.
Qed.

(** A guarded call does nothing at all, whatever the store holds. *)
Lemma handleSubmitOrder_guarded (closure : State) (uuid now : string) :
  guard closure = true ->
  handleSubmitOrder closure uuid now = ret tt.
Proof.
  unfold guard, handleSubmitOrder.
  destruct (user closure) as [u|]; simpl; auto.
  intros H. now rewrite H.
Qed.

(** A call that passes the guard is two writes followed by the call of
    the service. *)
Lemma handleSubmitOrder_passed (closure : State) (uuid now : string) :
  guard closure = false ->
  exists u,
    user closure = Some u
    /\ handleSubmitOrder closure uuid now
       = (setSubmitting true ;; setError None ;;
          emit (SubmitOrder (new_order closure u uuid now))).
Proof.
  unfold guard, handleSubmitOrder.
  destruct (user closure) as [u|]; simpl; [|discriminate].
  intros H. rewrite H. eauto.
Qed.

Lemma persistence_calls_app (t1 t2 : list effect) :
  persistence_calls (t1 ++ t2)
  = (persistence_calls t1 + persistence_calls t2)%nat.
Proof.
  unfold persistence_calls. now rewrite filter_app, length_app.
Qed.

Lemma load_calls_app (t1 t2 : list effect) :
  load_calls (t1 ++ t2) = (load_calls t1 + load_calls t2)%nat.
Proof.
  unfold load_calls. now rewrite filter_app, length_app.
Qed.



(** Only the effect run at mount calls the menu service. *)
Lemma step_no_load (s : State) (e : event) :
  is_mounted e = false -> load_calls (snd (step s e)) = 0%nat.
Proof.
  intros He. unfold step.
  destruct e as [|r|c|uuid now|r|]; try discriminate.
  - now destruct r.
  - now destruct c.
  - cbn [handler]. destruct (guard s) eqn:G.
    + now rewrite handleSubmitOrder_guarded.
    + destruct (handleSubmitOrder_passed s uuid now G) as [u [_ ->]].
      reflexivity.
  - now destruct r.
  - reflexivity.
Qed.

Lemma run_no_load (es : list event) :
  forall s, no_mount es = true -> load_calls (snd (run s es)) = 0%nat.
Proof.
  induction es as [|e es IH]; intros s Hes; auto.
  cbn [no_mount forallb] in Hes. apply andb_prop in Hes.
  destruct Hes as [He Hes]. apply negb_true_iff in He.
  pose proof (step_no_load s e He) as H1.
  cbn [run]. destruct (step s e) as [s1 t1]. cbn [snd] in H1.
  specialize (IH s1 Hes).
  destruct (run s1 es) as [s2 t2]. cbn [snd] in *.
  rewrite load_calls_app. lia.
Qed.

(** The effects and the state a call that passes the guard leaves. *)
Lemma step_submit_passed (s : State) (uuid now : string) :
  guard s = false ->
  exists u,
    user s = Some u
    /\ step s (Submit uuid now)
       = ({| menuItems := menuItems s; orderItems := orderItems s;
             loading := loading s; error := None; submitting := true;
             successMessage := successMessage s; user := user s |},
          [SubmitOrder (new_order s u uuid now)]).
Proof.
  intros G. destruct (handleSubmitOrder_passed s uuid now G) as [u [Hu E]].
  exists u. split; auto. unfold step. cbn [handler]. rewrite E. reflexivity.
Qed.

(** C1: when the user is absent, or the cart is empty, or a submission
    is in flight, [submit] returns at once: it writes no slot of the
    state (cart, error, success message and submitting flag are as
    before, and so is what is rendered) and emits nothing, neither a
    call of the persistence service nor console output. *)
Theorem submit_guarded_is_noop (s : State) (uuid now : string) :
  user s = None \/ orderItems s = [] \/ submitting s = true ->
  (forall store, handleSubmitOrder s uuid now store = (tt, store, []))
  /\ step s (Submit uuid now) = (s, [])
  /\ persistence_calls (snd (step s (Submit uuid now))) = 0%nat
  /\ error (fst (step s (Submit uuid now))) = error s
  /\ render (fst (step s (Submit uuid now))) = render s.
Proof.
  intros H. apply guard_true_iff in H.
  assert (E : step s (Submit uuid now) = (s, [])).
  { unfold step. cbn [handler]. now rewrite handleSubmitOrder_guarded. }
  split; [|rewrite E; repeat split; reflexivity].
  intros store. now rewrite handleSubmitOrder_guarded.
Qed.

Lemma submit_guarded_is_noop_witness :
  (user Samples.signed_out = None
   \/ orderItems Samples.signed_out = []
   \/ submitting Samples.signed_out = true)
  /\ step Samples.signed_out (Submit "id-1" "t-1")
     = (Samples.signed_out, []).
Proof.
  split; [left; reflexivity|].
  exact (proj1 (proj2
    (submit_guarded_is_noop Samples.signed_out "id-1" "t-1"
       (or_introl eq_refl)))).
Defined.

(** C2: a submit that passes the guard and whose persistence call
    fails puts the failure's message in the error slot (the generic
    text when the failure has no message or an empty one), leaves the
    cart lines as they were, and puts the submitting flag back to
    false, so that the next submit calls the service again.  The
    settling itself never touches the cart, whatever the cart holds by
    then. *)
Theorem submit_failure_keeps_cart
        (s : State) (uuid now : string) (err : Failure) :
  user s <> None -> orderItems s <> [] -> submitting s = false ->
  let s1 := fst (step s (Submit uuid now)) in
  let s2 := fst (step s1 (SubmitSettled (Rejected err))) in
  persistence_calls (snd (step s (Submit uuid now))) = 1%nat
  /\ submitting s1 = true
  /\ (forall m, message err = Some m -> m <> ""%string -> error s2 = Some m)
  /\ (message err = None \/ message err = Some ""%string ->
      error s2 = Some "Failed to submit order"%string)
  /\ orderItems s2 = orderItems s
  /\ submitting s2 = false
  /\ (forall uuid' now',
        persistence_calls (snd (step s2 (Submit uuid' now'))) = 1%nat)
  /\ (forall s',
        orderItems (fst (step s' (SubmitSettled (Rejected err)))) = orderItems s'
        /\ submitting (fst (step s' (SubmitSettled (Rejected err)))) = false).
Proof.
  intros Hu Hc Hs s1 s2.
  assert (G : guard s = false) by (apply guard_false_iff; auto).
  destruct (step_submit_passed s uuid now G) as [u [Hus E]].
  subst s2 s1. rewrite E. cbn [fst snd].
  split; [reflexivity|]. split; [reflexivity|].
  split; [|split; [|split; [reflexivity|split; [reflexivity|split]]]].
  - intros m Hm Hne. unfold step. cbn. rewrite Hm.
    destruct m; [congruence | reflexivity].
  - intros [Hm | Hm]; unfold step; cbn; now rewrite Hm.
  - intros uuid' now'.
    match goal with |- context [step ?s2 _] => set (s2' := s2) end.
    assert (G2 : guard s2' = false).
    { apply guard_false_iff. subst s2'. unfold step. cbn. auto. }
    destruct (step_submit_passed s2' uuid' now' G2) as [u' [_ E2]].
    now rewrite E2.
  - intros s'. split; reflexivity.
Qed.

Lemma submit_failure_keeps_cart_witness :
  user Samples.ready <> None
  /\ orderItems Samples.ready <> []
  /\ submitting Samples.ready = false
  /\ error (fst (run Samples.ready
                   [Submit "id-1" "t-1";
                    SubmitSettled (Rejected Samples.network_error)]))
     = Some "network error"%string.
Proof.
  assert (H1 : user Samples.ready <> None) by discriminate.
  assert (H2 : orderItems Samples.ready <> []) by discriminate.
  assert (H3 : submitting Samples.ready = false) by reflexivity.
  split; [exact H1 | split; [exact H2 | split; [exact H3 |]]].
  apply (proj1 (proj2 (proj2
    (submit_failure_keeps_cart Samples.ready "id-1" "t-1"
       Samples.network_error H1 H2 H3)))
    "network error"%string eq_refl).
  discriminate.
Defined.

(** C3: a submit that passes the guard and whose persistence call
    succeeds empties the cart, sets the success message, which opens
    the snackbar with a hide duration of 6000 milliseconds and a close
    handler that clears the message again, and puts the submitting
    flag back to false. *)
Theorem submit_success_clears_cart (s : State) (uuid now : string) :
  user s <> None -> orderItems s <> [] -> submitting s = false ->
  let s1 := fst (step s (Submit uuid now)) in
  let s2 := fst (step s1 (SubmitSettled (Fulfilled tt))) in
  persistence_calls (snd (step s (Submit uuid now))) = 1%nat
  /\ orderItems s2 = []
  /\ successMessage s2 = Some "Order submitted successfully!"%string
  /\ snackbar s2 = {| open := true; autoHideDuration := 6 * 1000 |}
  /\ (loading s = false ->
      render s2
      = Page None {| open := true; autoHideDuration := 6 * 1000 |})
  /\ open (snackbar (fst (step s2 SnackbarClosed))) = false
  /\ successMessage (fst (step s2 SnackbarClosed)) = None
  /\ error s2 = None
  /\ submitting s2 = false.
Proof.
  intros Hu Hc Hs s1 s2.
  assert (G : guard s = false) by (apply guard_false_iff; auto).
  destruct (step_submit_passed s uuid now G) as [u [Hus E]].
  subst s2 s1. rewrite E. cbn [fst snd].
  do 4 (split; [reflexivity|]).
  split; [|repeat split].
  intros Hl. unfold render, step. cbn. now rewrite Hl.
Qed.

Lemma submit_success_clears_cart_witness :
  user Samples.ready <> None
  /\ orderItems Samples.ready <> []
  /\ submitting Samples.ready = false
  /\ orderItems (fst (run Samples.ready
                        [Submit "id-1" "t-1"; SubmitSettled (Fulfilled tt)]))
     = [].
Proof.
  assert (H1 : user Samples.ready <> None) by discriminate.
  assert (H2 : orderItems Samples.ready <> []) by discriminate.
  assert (H3 : submitting Samples.ready = false) by reflexivity.
  split; [exact H1 | split; [exact H2 | split; [exact H3 |]]].
  exact (proj1 (proj2
    (submit_success_clears_cart Samples.ready "id-1" "t-1" H1 H2 H3))).
Defined.





(** C9: when the menu load made at mount fails, the error slot gets the
    fixed text, whatever the cause was, the loading flag goes from true
    to false, so that the page shows the error banner, and the cause is
    written to the console.  The menu service was called once, by the
    mount; the failure handler does not call it again, and neither does
    any later handler. *)
Theorem load_failure_reported
        (u : option User) (err : Failure) (es : list event) :
  no_mount es = true ->
  let r := run (initial u) [Mounted; MenuSettled (Rejected err)] in
  loading (initial u) = true
  /\ error (fst r) = Some "Failed to load menu items"%string
  /\ loading (fst r) = false
  /\ render (fst r)
     = Page (Some "Failed to load menu items"%string)
            {| open := false; autoHideDuration := 6000 |}
  /\ snd r = [GetMenuItems; ConsoleError None err]
  /\ load_calls (snd r) = 1%nat
  /\ (forall s,
        snd (step s (MenuSettled (Rejected err))) = [ConsoleError None err]
        /\ error (fst (step s (MenuSettled (Rejected err))))
           = Some "Failed to load menu items"%string
        /\ loading (fst (step s (MenuSettled (Rejected err)))) = false)
  /\ load_calls (snd (run (fst r) es)) = 0%nat.
Proof.
  intros Hes r. subst r.
  do 6 (split; [reflexivity|]).
  split; [intros s; repeat split|].
  now apply run_no_load.
Qed.

Lemma load_failure_reported_witness :
  no_mount [CartCall (Cart.Add Samples.soup); Submit "id-1" "t-1"] = true
  /\ load_calls
       (snd (run (fst (run (initial (Some Samples.alice))
                           [Mounted;
                            MenuSettled (Rejected Samples.network_error)]))
                 [CartCall (Cart.Add Samples.soup); Submit "id-1" "t-1"]))
     = 0%nat.
Proof.
  split; [reflexivity|].
  exact (proj2 (proj2 (proj2 (proj2 (proj2 (proj2 (proj2
    (load_failure_reported (Some Samples.alice) Samples.network_error
       [CartCall (Cart.Add Samples.soup); Submit "id-1" "t-1"]
       eq_refl)))))))).
Defined.

(** C10: a submit that passes the guard is the two writes
    [setSubmitting(true)] and [setError(null)] followed by the call of
    the persistence service: when the call is made the error slot is
    null and nothing has been emitted before.  So what a previous
    attempt left in the error slot is gone, and after the call settles
    the slot holds nothing (success) or the message of this attempt's
    failure, whatever it held before. *)
Theorem submit_clears_error_first (s : State) (uuid now : string) :
  user s <> None -> orderItems s <> [] -> submitting s = false ->
  exists u,
    user s = Some u
    /\ handleSubmitOrder s uuid now
       = ((setSubmitting true ;; setError None) ;;
          emit (SubmitOrder (new_order s u uuid now)))
    /\ error (fst (exec (setSubmitting true ;; setError None) s)) = None
    /\ snd (exec (setSubmitting true ;; setError None) s) = []
    /\ error (fst (step s (Submit uuid now))) = None
    /\ snd (step s (Submit uuid now)) = [SubmitOrder (new_order s u uuid now)]
    /\ (forall r,
          error (fst (step (fst (step s (Submit uuid now))) (SubmitSettled r)))
          = match r with
            | Fulfilled _ => None
            | Rejected err =>
                Some (or_else (message err) "Failed to submit order")
            end).
Proof.
  intros Hu Hc Hs.
  assert (G : guard s = false) by (apply guard_false_iff; auto).
  destruct (handleSubmitOrder_passed s uuid now G) as [u [Hus E]].
  destruct (step_submit_passed s uuid now G) as [u' [Hus' E']].
  assert (u' = u) by congruence. subst u'.
  exists u. split; [exact Hus|]. split; [rewrite E; reflexivity|].
  rewrite E'. cbn [fst snd].
  do 4 (split; [reflexivity|]).
  intros r. now destruct r.
Qed.

Lemma submit_clears_error_first_witness :
  user Samples.ready <> None
  /\ orderItems Samples.ready <> []
  /\ submitting Samples.ready = false
  /\ exists u,
       user Samples.ready = Some u
       /\ handleSubmitOrder Samples.ready "id-1" "t-1"
          = ((setSubmitting true ;; setError None) ;;
             emit (SubmitOrder (new_order Samples.ready u "id-1" "t-1"))).
Proof.
  assert (H1 : user Samples.ready <> None) by discriminate.
  assert (H2 : orderItems Samples.ready <> []) by discriminate.
  assert (H3 : submitting Samples.ready = false) by reflexivity.
  split; [exact H1 | split; [exact H2 | split; [exact H3 |]]].
  destruct (submit_clears_error_first Samples.ready "id-1" "t-1" H1 H2 H3)
    as [u [Hu [E _]]].
  exists u. split; [exact Hu | exact E].
Defined.

End OrderSystemFacts.

(** * How the cart handlers compose *)

Module CartComposition.
Import Cart CartFacts Observe.

(** The lines of one id and the lines of the other ids make up the
    cart. *)
Lemma length_split_by_id (k : Z) (cart : list OrderItem) :
  (List.length (filter (fun i => negb (has_id k i)) cart)
   + List.length (lines_of k cart) = List.length cart)%nat.
Proof.
  unfold lines_of. induction cart as [|i cart IH]; simpl; auto.
  destruct (has_id k i); simpl; lia.
Qed.

Lemma lines_of_remove (j k : Z) (cart : list OrderItem) :
  lines_of j (handleRemoveItem k cart)
  = if j =? k then [] else lines_of j cart.
Proof.
  unfold lines_of, handleRemoveItem.
  induction cart as [|i cart IH]; simpl.
  - now destruct (j =? k).
  - destruct (has_id k i) eqn:Ek; simpl.
    + rewrite IH. destruct (j =? k) eqn:E; auto.
      apply has_id_true in Ek. apply Z.eqb_neq in E.
      assert (Hj : has_id j i = false) by (apply has_id_false; congruence).
      now rewrite Hj.
    + destruct (has_id j i) eqn:Ej; rewrite IH.
      * destruct (j =? k) eqn:E; auto.
        apply Z.eqb_eq in E. subst j. congruence.
      * reflexivity.
Qed.

Lemma not_in_ids_remove (k : Z) (cart : list OrderItem) :
  ~ In k (ids (handleRemoveItem k cart)).
Proof.
  unfold ids, handleRemoveItem. rewrite in_map_iff.
  intros [i [Hk Hin]]. apply filter_In in Hin. destruct Hin as [_ Hne].
  apply negb_true_iff, has_id_false in Hne. auto.
Qed.

(** X1: [remove(id)] followed by [add(item)] with that id is a fresh
    insert: whatever line the cart had for the id, the cart then has
    the other lines in their order followed by one new line for the
    item, with quantity 1 and the fields (the price among them) of the
    item just added. *)
Theorem remove_then_add_is_fresh (it : MenuItem) (cart : list OrderItem) :
  handleAddItem it (handleRemoveItem (id it) cart)
  = filter (fun i => negb (has_id (id it) i)) cart
    ++ [ {| item := it; quantity := 1 |} ]
  /\ lines_of (id it) (handleAddItem it (handleRemoveItem (id it) cart))
     = [ {| item := it; quantity := 1 |} ].
Proof.
  assert (E : handleAddItem it (handleRemoveItem (id it) cart)
              = handleRemoveItem (id it) cart
                ++ [ {| item := it; quantity := 1 |} ]).
  { apply handleAddItem_fresh, not_in_ids_remove. }
  split; [exact E|].
  rewrite E, lines_of_app, lines_of_remove, Z.eqb_refl. simpl.
  unfold has_id. simpl. now rewrite Z.eqb_refl.
Qed.

Lemma ids_remove (k : Z) (cart : list OrderItem) :
  ids (handleRemoveItem k cart) = filter (fun j => negb (j =? k)) (ids cart).
Proof.
  unfold ids, handleRemoveItem, has_id.
  induction cart as [|i cart IH]; simpl; auto.
  destruct (id (item i) =? k); simpl; now rewrite IH.
Qed.

(** X2: [remove(id)] deletes the lines with that id and nothing else:
    the lines of every other id are as before, in the same order; as
    many lines go as the cart had for the id (none when the id is
    absent); and removing the id again changes nothing. *)
Theorem remove_deletes_only_that_id (k : Z) (cart : list OrderItem) :
  (forall j, lines_of j (handleRemoveItem k cart)
             = if j =? k then [] else lines_of j cart)
  /\ (List.length (handleRemoveItem k cart) + List.length (lines_of k cart)
      = List.length cart)%nat
  /\ ids (handleRemoveItem k cart) = filter (fun j => negb (j =? k)) (ids cart)
  /\ handleRemoveItem k (handleRemoveItem k cart) = handleRemoveItem k cart.
Proof.
  split; [intros j; apply lines_of_remove|].
  split; [apply length_split_by_id|].
  split; [apply ids_remove|].
  - unfold handleRemoveItem.
    induction cart as [|i cart IH]; simpl; auto.
    destruct (has_id k i) eqn:E; simpl; auto.
    now rewrite E, IH.
Qed.

Lemma existsb_ids (k : Z) (cart : list OrderItem) :
  existsb (Z.eqb k) (ids cart) = true <-> In k (ids cart).
Proof.
  rewrite existsb_exists. split.
  - intros [j [Hin E]]. apply Z.eqb_eq in E. now subst j.
  - intros H. exists k. split; auto. apply Z.eqb_refl.
Qed.

(** X3: the ids of the cart are kept in insertion order.  An add of an
    id the cart has keeps the ids as they are, an add of a new id puts
    it last; [updateQuantity] keeps the ids; [remove] takes the id out
    and keeps the order of the rest. *)
Theorem ids_follow_insertion_order (cart : list OrderItem) (c : call) :
  ids (apply cart c)
  = match c with
    | Add it =>
        if existsb (Z.eqb (id it)) (ids cart) then ids cart
        else ids cart ++ [id it]
    | UpdateQuantity _ _ => ids cart
    | Remove k => filter (fun j => negb (j =? k)) (ids cart)
    end.
Proof.
  destruct c as [it|k q|k]; cbn [apply].
  - destruct (existsb (Z.eqb (id it)) (ids cart)) eqn:E.
    + apply existsb_ids in E.
      rewrite (handleAddItem_present _ _ E). apply ids_map_quantity.
    + assert (H : ~ In (id it) (ids cart)).
      { intros H. apply existsb_ids in H. congruence. }
      rewrite (handleAddItem_fresh _ _ H), ids_app. reflexivity.
  - unfold handleUpdateQuantity. destruct (q <? 1); auto.
    apply ids_map_quantity.
  - apply ids_remove.
Qed.

(** What an add does to the lines of one id. *)
Lemma lines_of_add (k : Z) (it : MenuItem) (cart : list OrderItem) :
  lines_of k (handleAddItem it cart) = add_to_lines k (lines_of k cart) it.
Proof.
  unfold add_to_lines.
  destruct (id it =? k) eqn:E.
  - apply Z.eqb_eq in E. subst k.
    destruct (lines_of (id it) cart) as [|l L] eqn:EL.
    + assert (H : ~ In (id it) (ids cart)).
      { intros H. apply find_some_iff in H. destruct H as [i Hi].
        apply find_some in Hi. destruct Hi as [Hin Hid].
        assert (Hl : In i (lines_of (id it) cart)).
        { unfold lines_of. apply filter_In. auto. }
        rewrite EL in Hl. contradiction. }
      rewrite (handleAddItem_fresh _ _ H), lines_of_app, EL. simpl.
      unfold has_id. simpl. now rewrite Z.eqb_refl.
    + assert (H : In (id it) (ids cart)).
      { apply (lines_of_in _ _ l). rewrite EL. now left. }
      rewrite (handleAddItem_present _ _ H), lines_of_bump, EL. reflexivity.
  - apply Z.eqb_neq in E. unfold handleAddItem.
    destruct (find (has_id (id it)) cart) as [e|].
    + unfold lines_of. induction cart as [|i cart IH]; simpl; auto.
      destruct (has_id (id it) i) eqn:Ei; simpl.
      * apply has_id_true in Ei.
        assert (Hk : has_id k i = false) by (apply has_id_false; congruence).
        unfold has_id in *. simpl. rewrite Hk. exact IH.
      * destruct (has_id k i); [f_equal|]; exact IH.
    + rewrite lines_of_app. simpl.
      assert (Hk : has_id k {| item := it; quantity := 1 |} = false).
      { apply has_id_false. exact E. }
      rewrite Hk. apply app_nil_r.
Qed.

Lemma lines_of_adds (k : Z) (its : list MenuItem) :
  forall cart,
    lines_of k (adds its cart)
    = fold_left (add_to_lines k) its (lines_of k cart).
Proof.
  unfold adds. induction its as [|it its IH]; intros cart; simpl; auto.
  now rewrite IH, lines_of_add.
Qed.

(** The adds of other ids leave a line alone, the adds of its id bump
    it. *)
Lemma add_to_lines_single (k : Z) (its : list MenuItem) :
  forall l : OrderItem,
    fold_left (add_to_lines k) its [l]
    = [ {| item := item l;
           quantity := quantity l
                       + Z.of_nat (List.length
                                     (filter (fun it => id it =? k) its)) |} ].
Proof.
  induction its as [|it its IH]; intros l; simpl.
  - rewrite Z.add_0_r. now destruct l.
  - unfold add_to_lines at 2. destruct (id it =? k); simpl.
    + rewrite IH. cbn [item quantity List.length]. do 2 f_equal. lia.
    + apply IH.
Qed.

(** X4: after any series of adds made on the empty cart, with the ids
    mixed in any way, the cart has for each id that was added exactly
    one line; its quantity is the number of adds that carried the id
    and its fields (the price among them) are those of the first item
    added with the id.  An id that was never added has no line. *)
Theorem adds_count_per_id (its : list MenuItem) (k : Z) :
  lines_of k (adds its [])
  = match filter (fun it => id it =? k) its with
    | [] => []
    | first :: rest =>
        [ {| item := first;
             quantity := Z.of_nat (List.length (first :: rest)) |} ]
    end.
Proof.
  rewrite lines_of_adds. cbn [lines_of filter].
  induction its as [|it its IH]; simpl; auto.
  unfold add_to_lines at 2. destruct (id it =? k) eqn:E.
  - rewrite add_to_lines_single. cbn [item quantity].
    do 2 f_equal. cbn [List.length]. lia.
  - exact IH.
Qed.

(** X5: of two [updateQuantity] calls for one id the second wins, when
    its quantity is at least 1: the first call might as well not have
    been made. *)
Theorem update_last_write_wins (k q1 q2 : Z) (cart : list OrderItem) :
  1 <= q2 ->
  handleUpdateQuantity k q2 (handleUpdateQuantity k q1 cart)
  = handleUpdateQuantity k q2 cart.
Proof.
  intros H. unfold handleUpdateQuantity.
  apply Z.ltb_ge in H. rewrite H.
  destruct (q1 <? 1); auto.
  rewrite map_map. apply map_ext. intros i.
  destruct (has_id k i) eqn:E; [|now rewrite E].
  unfold has_id in *. simpl. now rewrite E.
Qed.

Lemma update_last_write_wins_witness :
  1 <= 3
  /\ handleUpdateQuantity 1 3 (handleUpdateQuantity 1 7 Samples.cart)
     = handleUpdateQuantity 1 3 Samples.cart.
Proof.
  assert (H : 1 <= 3) by lia.
  split; [exact H|].
  exact (update_last_write_wins 1 7 3 Samples.cart H).
Defined.

Lemma bump_fresh_commute (a : Z) (b : MenuItem) (cart : list OrderItem) :
  id b <> a ->
  In a (ids cart) -> ~ In (id b) (ids cart) ->
  forall it, id it = a ->
  handleAddItem it (handleAddItem b cart)
  = handleAddItem b (handleAddItem it cart).
Proof.
  intros Hne Ha Hb it Hit. subst a.
  rewrite (handleAddItem_fresh b cart Hb).
  rewrite (handleAddItem_present it cart Ha).
  rewrite handleAddItem_present.
  2:{ rewrite ids_app. apply in_or_app. now left. }
  rewrite handleAddItem_fresh.
  2:{ now rewrite ids_map_quantity. }
  rewrite map_app. simpl.
  assert (E : has_id (id it) {| item := b; quantity := 1 |} = false).
  { apply has_id_false. exact Hne. }
  now rewrite E.
Qed.

(** X6: two adds of different ids can be swapped: the cart holds the
    same lines either way, with the same quantities and prices; only
    when both ids are new does their order in the cart differ. *)
Theorem adds_of_different_ids_commute
        (a b : MenuItem) (cart : list OrderItem) :
  id a <> id b ->
  Permutation (handleAddItem a (handleAddItem b cart))
              (handleAddItem b (handleAddItem a cart))
  /\ (In (id a) (ids cart) \/ In (id b) (ids cart) ->
      handleAddItem a (handleAddItem b cart)
      = handleAddItem b (handleAddItem a cart)).
Proof.
  intros Hne.
  destruct (in_dec Z.eq_dec (id a) (ids cart)) as [Ha|Ha];
    destruct (in_dec Z.eq_dec (id b) (ids cart)) as [Hb|Hb].
  - assert (E : handleAddItem a (handleAddItem b cart)
                = handleAddItem b (handleAddItem a cart)).
    { rewrite (handleAddItem_present b cart Hb).
      rewrite (handleAddItem_present a cart Ha).
      rewrite !handleAddItem_present by (now rewrite ids_map_quantity).
      rewrite !map_map. apply map_ext. intros i.
      destruct (has_id (id b) i) eqn:Eb; destruct (has_id (id a) i) eqn:Ea;
        unfold has_id in *; simpl; rewrite ?Ea, ?Eb; auto. }
    rewrite E. split; auto.
  - assert (E : handleAddItem a (handleAddItem b cart)
                = handleAddItem b (handleAddItem a cart)).
    { apply (bump_fresh_commute (id a)); auto. }
    rewrite E. split; auto.
  - assert (E : handleAddItem b (handleAddItem a cart)
                = handleAddItem a (handleAddItem b cart)).
    { apply (bump_fresh_commute (id b)); auto. }
    rewrite E. split; auto.
  - split; [|tauto].
    rewrite (handleAddItem_fresh b cart Hb), (handleAddItem_fresh a cart Ha).
    rewrite !handleAddItem_fresh.
    + rewrite <- !app_assoc. apply Permutation_app_head. simpl.
      apply perm_swap.
    + rewrite ids_app. simpl. intros H. apply in_app_or in H.
      destruct H as [H | [H | []]]; auto.
    + rewrite ids_app. simpl. intros H. apply in_app_or in H.
      destruct H as [H | [H | []]]; auto.
Qed.

Lemma adds_of_different_ids_commute_witness :
  id Samples.bun <> id Samples.jam
  /\ Permutation
       (handleAddItem Samples.bun (handleAddItem Samples.jam Samples.cart))
       (handleAddItem Samples.jam (handleAddItem Samples.bun Samples.cart)).
Proof.
  assert (H : id Samples.bun <> id Samples.jam) by discriminate.
  split; [exact H|].
  exact (proj1 (adds_of_different_ids_commute
                  Samples.bun Samples.jam Samples.cart H)).
Defined.

End CartComposition.

(** * Totals of whole prices *)

Module TotalWhole.
Import Cart TotalFacts.

(** X7: when every price is a whole number of units and every quantity
    is a natural number, both below [2^53], and the sum of price times
    quantity is below [2^53] too, [total()] is exactly that sum: no
    step of the [reduce] rounds. *)
Theorem whole_prices_total_is_exact
        (units : OrderItem -> Z) (cart : list OrderItem) :
  Exact.whole_prices units cart ->
  Exact.whole_total units cart < 2 ^ 53 ->
  calculateTotal cart = of_Z (Exact.whole_total units cart)
  /\ Exact.no_rounding cart = true.
Proof.
  intros Hw Hlt. now apply calculateTotal_whole.
Qed.

Lemma whole_prices_total_is_exact_witness :
  Exact.whole_prices Samples.units_of
    [ {| item := Samples.stew; quantity := 2 |};
      {| item := Samples.pie; quantity := 4 |} ]
  /\ Exact.whole_total Samples.units_of
       [ {| item := Samples.stew; quantity := 2 |};
         {| item := Samples.pie; quantity := 4 |} ] < 2 ^ 53
  /\ calculateTotal
       [ {| item := Samples.stew; quantity := 2 |};
         {| item := Samples.pie; quantity := 4 |} ]
     = of_Z 22.
Proof.
  assert (H1 : Exact.whole_prices Samples.units_of
                 [ {| item := Samples.stew; quantity := 2 |};
                   {| item := Samples.pie; quantity := 4 |} ]).
  { unfold Exact.whole_prices.
    constructor; [|constructor; [|constructor]];
      (split; [reflexivity | cbn; lia]). }
  assert (H2 : Exact.whole_total Samples.units_of
                 [ {| item := Samples.stew; quantity := 2 |};
                   {| item := Samples.pie; quantity := 4 |} ] < 2 ^ 53).
  { reflexivity. }
  split; [exact H1 | split; [exact H2|]].
  exact (proj1 (whole_prices_total_is_exact Samples.units_of _ H1 H2)).
Defined.

(** X8: under the same conditions the order of the lines does not
    matter: two carts with the same lines have the same total, as
    numbers. *)
Theorem whole_prices_total_ignores_order
        (units : OrderItem -> Z) (c1 c2 : list OrderItem) :
  Exact.whole_prices units c1 ->
  Exact.whole_total units c1 < 2 ^ 53 ->
  Permutation c1 c2 ->
  calculateTotal c1 = calculateTotal c2.
Proof.
  intros Hw Hlt Hp. now apply (calculateTotal_whole_permutation units).
Qed.

Lemma whole_prices_total_ignores_order_witness :
  Exact.whole_prices Samples.units_of
    [ {| item := Samples.stew; quantity := 2 |};
      {| item := Samples.pie; quantity := 4 |} ]
  /\ Exact.whole_total Samples.units_of
       [ {| item := Samples.stew; quantity := 2 |};
         {| item := Samples.pie; quantity := 4 |} ] < 2 ^ 53
  /\ Permutation
       [ {| item := Samples.stew; quantity := 2 |};
         {| item := Samples.pie; quantity := 4 |} ]
       [ {| item := Samples.pie; quantity := 4 |};
         {| item := Samples.stew; quantity := 2 |} ]
  /\ calculateTotal
       [ {| item := Samples.stew; quantity := 2 |};
         {| item := Samples.pie; quantity := 4 |} ]
     = calculateTotal
         [ {| item := Samples.pie; quantity := 4 |};
           {| item := Samples.stew; quantity := 2 |} ].
Proof.
  assert (H1 : Exact.whole_prices Samples.units_of
                 [ {| item := Samples.stew; quantity := 2 |};
                   {| item := Samples.pie; quantity := 4 |} ]).
  { unfold Exact.whole_prices.
    constructor; [|constructor; [|constructor]];
      (split; [reflexivity | cbn; lia]). }
  assert (H2 : Exact.whole_total Samples.units_of
                 [ {| item := Samples.stew; quantity := 2 |};
                   {| item := Samples.pie; quantity := 4 |} ] < 2 ^ 53).
  { reflexivity. }
  assert (H3 : Permutation
                 [ {| item := Samples.stew; quantity := 2 |};
                   {| item := Samples.pie; quantity := 4 |} ]
                 [ {| item := Samples.pie; quantity := 4 |};
                   {| item := Samples.stew; quantity := 2 |} ]).
  { apply perm_swap. }
  split; [exact H1 | split; [exact H2 | split; [exact H3|]]].
  exact (whole_prices_total_ignores_order Samples.units_of _ _ H1 H2 H3).
Defined.

End TotalWhole.

(** * Runs of the component *)

Module OrderSystemRuns.
Import OrderSystem OrderSystemFacts Observe.

(** A run of two series of events is the run of the first followed by
    the run of the second. *)
Lemma run_app (es1 es2 : list event) :
  forall s,
    fst (run s (es1 ++ es2)) = fst (run (fst (run s es1)) es2)
    /\ snd (run s (es1 ++ es2))
       = snd (run s es1) ++ snd (run (fst (run s es1)) es2).
Proof.
  induction es1 as [|e es1 IH]; intros s; [now split|].
  cbn [app run]. destruct (step s e) as [s1 t1].
  destruct (IH s1) as [H1 H2].
  destruct (run s1 (es1 ++ es2)) as [s2 t2].
  destruct (run s1 es1) as [s3 t3]. cbn [fst snd] in *.
  destruct (run s3 es2) as [s4 t4]. cbn [fst snd] in *.
  subst. split; auto. now rewrite app_assoc.
Qed.

(** Cart calls write the cart and nothing else, and emit nothing. *)
Lemma run_cart_events (cs : list Cart.call) :
  forall s,
    run s (cart_events cs)
    = ({| menuItems := menuItems s;
          orderItems := Cart.run (orderItems s) cs;
          loading := loading s; error := error s;
          submitting := submitting s;
          successMessage := successMessage s; user := user s |}, []).
Proof.
  induction cs as [|c cs IH]; intros s.
  - now destruct s.
  - cbn [cart_events map run]. fold (cart_events cs).
    assert (E : step s (CartCall c)
                = ({| menuItems := menuItems s;
                      orderItems := Cart.apply (orderItems s) c;
                      loading := loading s; error := error s;
                      submitting := submitting s;
                      successMessage := successMessage s;
                      user := user s |}, [])).
    { now destruct c. }
    rewrite E, IH. reflexivity.
Qed.

(** X9: the cart can be changed while a submission is in flight, and a
    success then empties it all the same: lines added or changed after
    the order was built are dropped with the rest, although the order
    that was sent holds only the lines the cart had at the submit. *)
Theorem success_discards_edits_made_in_flight
        (s : State) (uuid now : string) (cs : list Cart.call) :
  guard s = false ->
  exists u,
    user s = Some u
    /\ snd (run s (Submit uuid now :: cart_events cs
                   ++ [SubmitSettled (Fulfilled tt)]))
       = [SubmitOrder (new_order s u uuid now)]
    /\ items (new_order s u uuid now) = orderItems s
    /\ orderItems (fst (run s (Submit uuid now :: cart_events cs
                               ++ [SubmitSettled (Fulfilled tt)]))) = []
    /\ submitting (fst (run s (Submit uuid now :: cart_events cs
                               ++ [SubmitSettled (Fulfilled tt)]))) = false.
Proof.
  intros G. destruct (step_submit_passed s uuid now G) as [u [Hu E]].
  exists u. split; [exact Hu|].
  cbn [run]. rewrite E.
  match goal with |- context [run ?s1 _] => set (s1' := s1) end.
  destruct (run_app (cart_events cs) [SubmitSettled (Fulfilled tt)] s1')
    as [H1 H2].
  destruct (run s1' (cart_events cs ++ [SubmitSettled (Fulfilled tt)]))
    as [s2 t2]. cbn [fst snd] in *.
  rewrite run_cart_events in H1, H2. cbn [fst snd] in H1, H2.
  subst s2 t2. repeat split.
Qed.

Lemma success_discards_edits_made_in_flight_witness :
  guard Samples.ready = false
  /\ orderItems
       (fst (run Samples.ready
               (Submit "id-1" "t-1"
                :: cart_events [Cart.Add Samples.bun; Cart.UpdateQuantity 1 5]
                ++ [SubmitSettled (Fulfilled tt)]))) = [].
Proof.
  split; [reflexivity|].
  destruct (success_discards_edits_made_in_flight Samples.ready "id-1" "t-1"
              [Cart.Add Samples.bun; Cart.UpdateQuantity 1 5] eq_refl)
    as [u [_ [_ [_ [H _]]]]].
  exact H.
Defined.

(** X10: when the persistence call fails, the cart is what the cart
    calls made in the meantime have left of it: the failure itself
    neither restores the lines that were sent nor drops the later
    edits. *)
Theorem failure_keeps_edits_made_in_flight
        (s : State) (uuid now : string) (cs : list Cart.call) (err : Failure) :
  guard s = false ->
  exists u,
    user s = Some u
    /\ snd (run s (Submit uuid now :: cart_events cs
                   ++ [SubmitSettled (Rejected err)]))
       = [SubmitOrder (new_order s u uuid now);
          ConsoleError (Some "Order submission error:"%string) err]
    /\ orderItems (fst (run s (Submit uuid now :: cart_events cs
                               ++ [SubmitSettled (Rejected err)])))
       = Cart.run (orderItems s) cs
    /\ error (fst (run s (Submit uuid now :: cart_events cs
                          ++ [SubmitSettled (Rejected err)])))
       = Some (or_else (message err) "Failed to submit order")
    /\ submitting (fst (run s (Submit uuid now :: cart_events cs
                               ++ [SubmitSettled (Rejected err)]))) = false.
Proof.
  intros G. destruct (step_submit_passed s uuid now G) as [u [Hu E]].
  exists u. split; [exact Hu|].
  cbn [run]. rewrite E.
  match goal with |- context [run ?s1 _] => set (s1' := s1) end.
  destruct (run_app (cart_events cs) [SubmitSettled (Rejected err)] s1')
    as [H1 H2].
  destruct (run s1' (cart_events cs ++ [SubmitSettled (Rejected err)]))
    as [s2 t2]. cbn [fst snd] in *.
  rewrite run_cart_events in H1, H2. cbn [fst snd] in H1, H2.
  subst s2 t2. repeat split.
Qed.

Lemma failure_keeps_edits_made_in_flight_witness :
  guard Samples.ready = false
  /\ orderItems
       (fst (run Samples.ready
               (Submit "id-1" "t-1"
                :: cart_events [Cart.Add Samples.bun]
                ++ [SubmitSettled (Rejected Samples.network_error)])))
     = Cart.run (orderItems Samples.ready) [Cart.Add Samples.bun].
Proof.
  split; [reflexivity|].
  destruct (failure_keeps_edits_made_in_flight Samples.ready "id-1" "t-1"
              [Cart.Add Samples.bun] Samples.network_error eq_refl)
    as [u [_ [_ [H _]]]].
  exact H.
Defined.




(** An empty cart stays empty and silent under any event but an add. *)
Lemma step_empty_cart (s : State) (e : event) :
  orderItems s = [] -> is_add e = false ->
  orderItems (fst (step s e)) = []
  /\ persistence_calls (snd (step s e)) = 0%nat.
Proof.
  intros Hc He.
  destruct e as [|r|c|uuid now|r|].
  - now split.
  - destruct r; now split.
  - destruct c as [it|k q|k]; [discriminate | |]; cbn; rewrite Hc.
    + unfold Cart.handleUpdateQuantity. now destruct (q <? 1).
    + now split.
  - unfold step. cbn [handler]. rewrite handleSubmitOrder_guarded.
    + now split.
    + apply guard_true_iff. auto.
  - destruct r; now split.
  - now split.
Qed.

(** X12: while the cart is empty nothing is sent: from a state with an
    empty cart, as long as no item is added, the cart stays empty and
    the persistence service is not called, however often submit is
    asked for.  After a successful submission, therefore, a further
    submit sends nothing until an item is added again. *)
Theorem empty_cart_sends_nothing (s : State) (es : list event) :
  orderItems s = [] ->
  no_add es = true ->
  orderItems (fst (run s es)) = []
  /\ persistence_calls (snd (run s es)) = 0%nat.
Proof.
  revert s. induction es as [|e es IH]; intros s Hc Hes; [now split|].
  cbn [no_add forallb] in Hes. apply andb_prop in Hes.
  destruct Hes as [He Hes]. apply negb_true_iff in He.
  destruct (step_empty_cart s e Hc He) as [H1 H2].
  cbn [run]. destruct (step s e) as [s1 t1]. cbn [fst snd] in *.
  destruct (IH s1 H1 Hes) as [H3 H4].
  destruct (run s1 es) as [s2 t2]. cbn [fst snd] in *.
  split; auto. rewrite persistence_calls_app. lia.
Qed.

Lemma empty_cart_sends_nothing_witness :
  orderItems
    (fst (run Samples.ready
            [Submit "id-1" "t-1"; SubmitSettled (Fulfilled tt)])) = []
  /\ no_add [Submit "id-2" "t-2"; CartCall (Cart.UpdateQuantity 1 3);
             Submit "id-3" "t-3"] = true
  /\ persistence_calls
       (snd (run (fst (run Samples.ready
                         [Submit "id-1" "t-1"; SubmitSettled (Fulfilled tt)]))
                 [Submit "id-2" "t-2"; CartCall (Cart.UpdateQuantity 1 3);
                  Submit "id-3" "t-3"])) = 0%nat.
Proof.
  split; [reflexivity | split; [reflexivity|]].
  exact (proj2 (empty_cart_sends_nothing
                  (fst (run Samples.ready
                          [Submit "id-1" "t-1"; SubmitSettled (Fulfilled tt)]))
                  [Submit "id-2" "t-2"; CartCall (Cart.UpdateQuantity 1 3);
                   Submit "id-3" "t-3"]
                  eq_refl eq_refl)).
Defined.

(** No handler but the settling of the menu call writes [loading]. *)
Lemma step_loading (s : State) (e : event) :
  loading (fst (step s e))
  = if is_menuSettled e then false else loading s.
Proof.
  destruct e as [|r|c|uuid now|r|].
  - reflexivity.
  - now destruct r.
  - now destruct c.
  - unfold step. cbn [handler is_menuSettled]. destruct (guard s) eqn:G.
    + now rewrite handleSubmitOrder_guarded.
    + now destruct (handleSubmitOrder_passed s uuid now G) as [u [_ ->]].
  - now destruct r.
  - reflexivity.
Qed.

(** X13: once the page is shown the spinner never comes back: no
    handler sets [loading] to true, so from a state that is not
    loading every run ends in a state that is not loading, and what is
    rendered there is the page. *)
Theorem loading_never_returns (s : State) (es : list event) :
  loading s = false ->
  loading (fst (run s es)) = false
  /\ render (fst (run s es)) <> LoadingSpinner.
Proof.
  intros H.
  assert (H' : loading (fst (run s es)) = false).
  { revert s H. induction es as [|e es IH]; intros s H; [exact H|].
    pose proof (step_loading s e) as H1.
    cbn [run]. destruct (step s e) as [s1 t1]. cbn [fst] in H1.
    assert (H2 : loading s1 = false).
    { rewrite H1, H. now destruct (is_menuSettled e). }
    specialize (IH s1 H2). now destruct (run s1 es). }
  split; [exact H'|]. unfold render. rewrite H'. discriminate.
Qed.

Lemma loading_never_returns_witness :
  loading Samples.ready = false
  /\ loading
       (fst (run Samples.ready
               [Mounted; Submit "id-1" "t-1";
                SubmitSettled (Rejected Samples.network_error)])) = false.
Proof.
  split; [reflexivity|].
  exact (proj1 (loading_never_returns Samples.ready
                  [Mounted; Submit "id-1" "t-1";
                   SubmitSettled (Rejected Samples.network_error)]
                  eq_refl)).
Defined.

(** X14: however the menu call settles, the spinner goes away and the
    cart, the success message and the submitting flag are left alone.
    On success the menu is what the service returned, nothing is
    written to the console, and the error slot keeps what it held: a
    load that succeeds does not clear an error. *)
Theorem menu_settled_outcome (s : State) (r : settled (list MenuItem)) :
  loading (fst (step s (MenuSettled r))) = false
  /\ orderItems (fst (step s (MenuSettled r))) = orderItems s
  /\ successMessage (fst (step s (MenuSettled r))) = successMessage s
  /\ submitting (fst (step s (MenuSettled r))) = submitting s
  /\ load_calls (snd (step s (MenuSettled r))) = 0%nat
  /\ match r with
     | Fulfilled items =>
         menuItems (fst (step s (MenuSettled r))) = items
         /\ error (fst (step s (MenuSettled r))) = error s
         /\ snd (step s (MenuSettled r)) = []
     | Rejected err =>
         menuItems (fst (step s (MenuSettled r))) = menuItems s
     end.
Proof.
  destruct r; repeat split.
Qed.






(** X17: the guard reads the values of the render that made the
    handler, not the store.  A handler made in a render that passes
    the guard therefore calls the service each time it is invoked,
    also when the store already says that a submission is in flight,
    and each order carries the cart lines of that render. *)
Theorem same_handler_invoked_twice
        (closure store : State) (uuid1 now1 uuid2 now2 : string) :
  guard closure = false ->
  exists u,
    user closure = Some u
    /\ submitting
         (fst (exec (handleSubmitOrder closure uuid1 now1) store)) = true
    /\ snd (exec (handleSubmitOrder closure uuid1 now1) store)
       = [SubmitOrder (new_order closure u uuid1 now1)]
    /\ snd (exec (handleSubmitOrder closure uuid2 now2)
                 (fst (exec (handleSubmitOrder closure uuid1 now1) store)))
       = [SubmitOrder (new_order closure u uuid2 now2)].
Proof.
  intros G.
  destruct (handleSubmitOrder_passed closure uuid1 now1 G) as [u [Hu E1]].
  destruct (handleSubmitOrder_passed closure uuid2 now2 G) as [u' [Hu' E2]].
  assert (u' = u) by congruence. subst u'.
  exists u. rewrite E1, E2. repeat split. exact Hu.
Qed.

Lemma same_handler_invoked_twice_witness :
  guard Samples.ready = false
  /\ persistence_calls
       (snd (exec (handleSubmitOrder Samples.ready "id-1" "t-1") Samples.ready)
        ++ snd (exec (handleSubmitOrder Samples.ready "id-2" "t-2")
                     (fst (exec (handleSubmitOrder Samples.ready "id-1" "t-1")
                                Samples.ready)))) = 2%nat.
Proof.
  split; [reflexivity|].
  destruct (same_handler_invoked_twice Samples.ready Samples.ready
              "id-1" "t-1" "id-2" "t-2" eq_refl)
    as [u [_ [_ [H1 H2]]]].
  rewrite H1, H2. reflexivity.
Defined.

(** X18: which handler writes which slot.  The user is never written;
    the menu only by a load that succeeds; the cart only by a cart call
    or by a submission that succeeds; [loading] only when the menu call
    settles; the error slot only by a failed load, by a submit, or by a
    failed submission; the success message only by a submission that
    succeeds or by closing the snackbar.  Only the mount, a submit and
    the two failures emit anything. *)
Theorem slots_written_by (s : State) (e : event) :
  user (fst (step s e)) = user s
  /\ (menuItems (fst (step s e)) <> menuItems s ->
      exists items, e = MenuSettled (Fulfilled items))
  /\ (orderItems (fst (step s e)) <> orderItems s ->
      (exists c, e = CartCall c) \/ e = SubmitSettled (Fulfilled tt))
  /\ (loading (fst (step s e)) <> loading s ->
      exists r, e = MenuSettled r)
  /\ (error (fst (step s e)) <> error s ->
      (exists err, e = MenuSettled (Rejected err))
      \/ (exists uuid now, e = Submit uuid now)
      \/ (exists err, e = SubmitSettled (Rejected err)))
  /\ (successMessage (fst (step s e)) <> successMessage s ->
      e = SubmitSettled (Fulfilled tt) \/ e = SnackbarClosed)
  /\ (snd (step s e) <> [] ->
      e = Mounted
      \/ (exists err, e = MenuSettled (Rejected err))
      \/ (exists uuid now, e = Submit uuid now)
      \/ (exists err, e = SubmitSettled (Rejected err))).
Proof.
  destruct e as [|r|c|uuid now|r|].
  - repeat split; try (intros H; now elim H). auto.
  - destruct r as [items|err]; repeat split;
      try (intros H; now elim H); eauto.
  - destruct c; repeat split; try (intros H; now elim H); eauto.
  - destruct (guard s) eqn:G.
    + unfold step. cbn [handler]. rewrite handleSubmitOrder_guarded by exact G.
      repeat split; try (intros H; now elim H).
    + destruct (step_submit_passed s uuid now G) as [u [_ E]]. rewrite E.
      repeat split; try (intros H; now elim H); eauto 10.
  - destruct r as [[]|err]; repeat split;
      try (intros H; now elim H); eauto 10.
  - repeat split; try (intros H; now elim H). auto.
Qed.



End OrderSystemRuns.
